(** * readme_generation: the ingestion, prompt-assembly and sanitising pipeline of main.py

    A shallow embedding of [src/main.py]: Python [str] values are sequences of
    Unicode code points, a [dict] is an insertion-ordered association list, the
    directory tree that [os.walk] traverses is an inductive tree, and the
    messages that the program itself prints to [sys.stderr] are recorded in
    an explicit diagnostic stream. *)

From Stdlib Require Import String Ascii.
From Stdlib Require Import List NArith Bool Arith Lia.
Import ListNotations.

Set Implicit Arguments.
Set Warnings "-register-all".

(** ** Python strings *)

Module PyStr.

(** A [str] is a sequence of Unicode code points. *)
Definition char := N.
Definition str := list char.

(** ASCII literals of the source, as code-point sequences. *)
Fixpoint lit (s : string) : str :=
  match s with
  | EmptyString => []
  | String a s' => N_of_ascii a :: lit s'
  end.

Definition LF : char := 10%N.
Definition CR : char := 13%N.
Definition nl : str := [LF].

Fixpoint eqb (a b : str) : bool :=
  match a, b with
  | [], [] => true
  | x :: a', y :: b' => N.eqb x y && eqb a' b'
  | _, _ => false
  end.

(** [s in collection] for a set literal of strings. *)
Definition mem (s : str) (set : list str) : bool := existsb (eqb s) set.

(** [s.startswith(prefix)] *)
Fixpoint startswith (s prefix : str) {struct prefix} : bool :=
  match prefix, s with
  | [], _ => true
  | p :: prefix', c :: s' => N.eqb c p && startswith s' prefix'
  | _ :: _, [] => false
  end.

Local Open Scope N_scope.

(** The line boundaries of [str.splitlines]: LF, VT, FF, CR, FS, GS, RS, NEL,
    LINE SEPARATOR and PARAGRAPH SEPARATOR (CR LF counts as one boundary). *)
Definition is_linebreak (c : char) : bool :=
  ((10 <=? c) && (c <=? 13)) || ((28 <=? c) && (c <=? 30))
  || (c =? 133) || (c =? 8232) || (c =? 8233).

(** The characters [str.strip()] removes: those for which [str.isspace] holds. *)
Definition is_space (c : char) : bool :=
  ((9 <=? c) && (c <=? 13)) || ((28 <=? c) && (c <=? 32))
  || (c =? 133) || (c =? 160) || (c =? 5760)
  || ((8192 <=? c) && (c <=? 8202))
  || (c =? 8232) || (c =? 8233) || (c =? 8239) || (c =? 8287) || (c =? 12288).

(** [str.lower()] on one code point.  The table covers the capitals of ASCII
    and Latin-1 and the code points beyond Latin-1 whose lowercase form has
    a character of Latin-1 in it: dotted capital I (which lowers to two code
    points), capital Y with diaeresis, capital sharp S, KELVIN SIGN and
    ANGSTROM SIGN.  Every cased letter that is not in the table lowers to
    code points outside ASCII and is left as it is here: the source
    compares lowered text with ASCII literals only, and a code point
    outside ASCII differs from every character of such a literal whether it
    is lowered or not. *)
Definition lower_char (c : char) : str :=
  if (65 <=? c) && (c <=? 90) then [c + 32]
  else if (192 <=? c) && (c <=? 222) && negb (c =? 215) then [c + 32]
  else if c =? 304 then [105; 775]
  else if c =? 376 then [255]
  else if c =? 7838 then [223]
  else if c =? 8490 then [107]
  else if c =? 8491 then [229]
  else [c].

Local Close Scope N_scope.

Definition lower (s : str) : str := flat_map lower_char s.

Fixpoint lstrip (s : str) : str :=
  match s with
  | c :: s' => if is_space c then lstrip s' else s
  | [] => []
  end.

Definition rstrip (s : str) : str := rev (lstrip (rev s)).

(** [s.strip()] *)
Definition strip (s : str) : str := rstrip (lstrip s).

(** [s.splitlines(keepends=True)]: every line keeps its terminator, and a
    final line without terminator is kept when it is not empty. *)
Fixpoint splitlines (s : str) : list str :=
  match s with
  | [] => []
  | c :: s' =>
      if is_linebreak c then
        match s' with
        | d :: s'' =>
            if N.eqb c CR && N.eqb d LF then [c; d] :: splitlines s''
            else [c] :: splitlines s'
        | [] => [[c]]
        end
      else
        match splitlines s' with
        | [] => [[c]]
        | l :: ls => (c :: l) :: ls
        end
  end.

(** ["".join(parts)] *)
Definition join_empty (parts : list str) : str := concat parts.

(** [sep.join(parts)] *)
Fixpoint join (sep : str) (parts : list str) : str :=
  match parts with
  | [] => []
  | [p] => p
  | p :: ps => p ++ sep ++ join sep ps
  end.

(** [lines[1:-1]] *)
Definition slice_1_m1 (A : Type) (l : list A) : list A := removelast (tl l).

(** [lines[0]] and [lines[-1]] of a list known to be non-empty. *)
Definition first_item (l : list str) : str := hd [] l.
Definition last_item (l : list str) : str := last l [].

End PyStr.

Import PyStr.

(** ** Output Sanitizer: [clean_ai_output] *)

Definition FENCE : str := lit "```".
Definition FENCE_MARKDOWN : str := lit "```markdown".

Definition clean_ai_output (ai_response_string : str) : str :=
  match ai_response_string with
  | [] => []
  | _ =>
      let lines := splitlines ai_response_string in
      match lines with
      | [] => []
      | _ =>
          let first_line_stripped := strip (first_item lines) in
          let last_line_stripped := strip (last_item lines) in
          let starts_with_fence :=
            eqb (lower first_line_stripped) FENCE_MARKDOWN
            || eqb first_line_stripped FENCE in
          let ends_with_fence :=
            starts_with_fence && eqb (lower last_line_stripped) FENCE in
          let cleaned_lines :=
            if starts_with_fence && ends_with_fence && (2 <=? length lines)
            then slice_1_m1 lines else lines in
          join_empty cleaned_lines
      end
  end.

(** ** Path operations of [os.path] (POSIX flavour) *)

Module OsPath.

Definition SEP : char := 47%N.     (* "/" *)
Definition EXTSEP : char := 46%N.  (* "." *)

(** [s.rfind(c)] for a one-character [c]: the highest index, or [None] where
    Python answers [-1]. *)
Fixpoint rfind (c : char) (s : str) : option nat :=
  match s with
  | [] => None
  | x :: s' =>
      match rfind c s' with
      | Some i => Some (S i)
      | None => if N.eqb x c then Some 0 else None
      end
  end.

(** [s.endswith(c)] for a one-character [c]. *)
Definition endswith_char (s : str) (c : char) : bool :=
  match rev s with
  | x :: _ => N.eqb x c
  | [] => false
  end.

(** [os.path.join(a, b)] *)
Definition join (a b : str) : str :=
  if startswith b [SEP] then b
  else match a with
       | [] => a ++ b
       | _ => if endswith_char a SEP then a ++ b else a ++ [SEP] ++ b
       end.

(** [os.path.basename(p)]: [p[p.rfind("/") + 1:]] *)
Definition basename (p : str) : str :=
  match rfind SEP p with
  | Some i => skipn (S i) p
  | None => p
  end.

(** [os.path.splitext(p)]: the extension starts at the last dot of the last
    path component, unless that component has only dots before it. *)
Definition splitext (p : str) : str * str :=
  match rfind EXTSEP p with
  | None => (p, [])
  | Some dotIndex =>
      let filenameIndex :=
        match rfind SEP p with Some sepIndex => S sepIndex | None => 0 end in
      if dotIndex <? filenameIndex then (p, [])
      else
        (* the loop over [filenameIndex .. dotIndex - 1], leaving at the first
           character that is not a dot *)
        if existsb (fun c => negb (N.eqb c EXTSEP))
                   (skipn filenameIndex (firstn dotIndex p))
        then (firstn dotIndex p, skipn dotIndex p)
        else (p, [])
  end.

(** [os.path.relpath(root, directory_path)] for a [root] that [os.walk]
    reached from [directory_path] through the directories [components]:
    both paths are made absolute and the common prefix is dropped, which
    leaves the components joined by "/", or "." for the top itself. *)
Definition relpath (components : list str) : str :=
  match components with
  | [] => [EXTSEP]
  | _ => PyStr.join [SEP] components
  end.

End OsPath.

(** ** Dictionaries: insertion-ordered, an assignment to a present key keeps
    its position *)

Definition dict := list (str * str).

Fixpoint dict_set (d : dict) (k v : str) : dict :=
  match d with
  | [] => [(k, v)]
  | (k', v') :: d' =>
      if eqb k' k then (k', v) :: d' else (k', v') :: dict_set d' k v
  end.

Definition dict_keys (d : dict) : list str := map fst d.

(** ** The directory tree under the scanned path *)

(** What [open(path, 'r', encoding='utf-8', errors='ignore')] and [f.read()]
    give for a directory entry that is not a directory: the leniently decoded
    text, or an exception with its message. *)
Inductive read_result :=
| ReadOk (content : str)
| ReadError (e : str).

(** Entries are in the order [os.scandir] yields them.  A directory that
    [os.walk] lists but cannot or does not enter (unreadable, or a symbolic
    link, as [followlinks] is off) behaves as a directory without entries. *)
Inductive node :=
| File (r : read_result)
| Dir (entries : list (str * node)).

Definition listing := list (str * node).

Fixpoint dir_names (entries : listing) : list str :=
  match entries with
  | [] => []
  | (name, Dir _) :: es => name :: dir_names es
  | (_, File _) :: es => dir_names es
  end.

Fixpoint file_entries (entries : listing) : list (str * read_result) :=
  match entries with
  | [] => []
  | (name, File r) :: es => (name, r) :: file_entries es
  | (_, Dir _) :: es => file_entries es
  end.

(** One item of [os.walk(top, topdown=True)]: the directory reached (as the
    list of directory names from the top), its sub-directory names after the
    consumer's in-place edit, and its non-directory entries. *)
Definition walk_item := (list str * list str * list (str * read_result))%type.

(** [os.walk(top, topdown=True)] with a consumer that replaces [dirs[:]] by
    its members satisfying [keep] before asking for the next item: the walk
    yields a directory, then descends, in order, into the kept
    sub-directories only. *)
Fixpoint os_walk (keep : str -> bool) (top : list str) (n : node)
  : list walk_item :=
  match n with
  | File _ => []
  | Dir entries =>
      (top, filter keep (dir_names entries), file_entries entries)
      :: flat_map
           (fun entry : str * node =>
              let (name, child) := entry in
              if keep name then os_walk keep (top ++ [name]) child else [])
           entries
  end.

(** [os.path.isdir(path)] and [os.walk(path)] on what [path] denotes
    ([None]: nothing exists there). *)
Definition isdir (target : option node) : bool :=
  match target with
  | Some (Dir _) => true
  | _ => false
  end.

Definition os_walk_top (keep : str -> bool) (target : option node)
  : list walk_item :=
  match target with
  | Some n => os_walk keep [] n
  | None => []
  end.

(** ** Tree Walker: [read_codebase] *)

Definition IGNORE_DIRS : list str :=
  [lit ".venv"; lit "venv"; lit "myenv"; lit "__pycache__"; lit "node_modules";
   lit "build"; lit "dist"; lit "target"; lit ".codecrafters"; lit ".next"].
Definition IGNORE_EXTENSIONS : list str :=
  [lit ".o"; lit ".dll"; lit ".exe"; lit ".yml"].
Definition IGNORE_FILES : list str :=
  [lit "Cargo.lock"; lit "Cargo.toml"; lit "package-lock.json";
   lit "requirements.txt"].

Definition DOT : str := lit ".".

(** The condition of the comprehension assigned to [dirs[:]]. *)
Definition dir_kept (d : str) : bool :=
  negb (mem d IGNORE_DIRS) && negb (startswith d DOT).

(** The two [continue] tests of the file loop. *)
Definition file_ignored (filename : str) : bool :=
  if mem filename IGNORE_FILES || startswith filename DOT then true
  else
    let extension := snd (OsPath.splitext filename) in
    mem extension IGNORE_EXTENSIONS.

(** The state of a scan: the dictionary being filled and the messages that
    the function's own [print(..., file=sys.stderr)] calls have issued.  (The
    progress bar that [tqdm] draws on [sys.stderr] and the lines printed to
    standard output are not part of the model.) *)
Record scan := mkScan { code_contents : dict; diagnostics : list str }.

Definition print_err (line : str) (st : scan) : scan :=
  mkScan (code_contents st) (diagnostics st ++ [line]).

Definition relative_root_of (root : list str) : str :=
  let relative_root := OsPath.relpath root in
  if eqb relative_root DOT then [] else relative_root.

(** The body of [for filename in files]. *)
Definition visit_file (relative_root : str) (st : scan)
           (f : str * read_result) : scan :=
  let (filename, r) := f in
  if file_ignored filename then st
  else
    let relative_path := OsPath.join relative_root filename in
    match r with
    | ReadOk content =>
        mkScan (dict_set (code_contents st) relative_path content)
               (diagnostics st)
    | ReadError _ => st
    end.

(** The body of [for root, dirs, files in os.walk(...)]. *)
Definition visit_dir (st : scan) (item : walk_item) : scan :=
  let '(root, _, files) := item in
  fold_left (visit_file (relative_root_of root)) files st.

Definition MSG_NOT_FOUND (directory_path : str) : str :=
  lit "Error: Directory not found: " ++ directory_path.
Definition MSG_NO_FILES : str :=
  lit "Warning: No relevant files found or read in the specfied directory.".

Definition read_codebase (directory_path : str) (target : option node) : scan :=
  let st0 := mkScan [] [] in
  let st1 :=
    if negb (isdir target) then print_err (MSG_NOT_FOUND directory_path) st0
    else st0 in
  let st2 := fold_left visit_dir (os_walk_top dir_kept target) st1 in
  match code_contents st2 with
  | [] => print_err MSG_NO_FILES st2
  | _ => st2
  end.

(** The FileSet of a scan. *)
Definition FileSet (directory_path : str) (target : option node) : dict :=
  code_contents (read_codebase directory_path target).

(** The files the walk comes across, each with the directory it was reached
    in and the outcome of reading it. *)
Definition walked_file := (list str * str * read_result)%type.

Definition files_of_item (item : walk_item) : list walked_file :=
  let '(root, _, files) := item in
  map (fun f : str * read_result => (root, fst f, snd f)) files.

Definition walked_files (target : option node) : list walked_file :=
  flat_map files_of_item (os_walk_top dir_kept target).

(** The key under which a walked file is stored. *)
Definition relative_path_of (root : list str) (filename : str) : str :=
  OsPath.join (relative_root_of root) filename.

Definition path_of_walked (f : walked_file) : str :=
  relative_path_of (fst (fst f)) (snd (fst f)).

(** A walked file is stored when the filter lets it through and it can be
    read. *)
Definition stored (f : walked_file) : Prop :=
  file_ignored (snd (fst f)) = false /\ exists content, snd f = ReadOk content.

(** ** Prompt Assembler: [format_codebase_for_prompt] *)

Definition NO_CONTENT : str :=
  lit "No code content was read from the directory.".
Definition HEADER : str := lit "Project Files:" ++ nl ++ nl.

Definition format_codebase_for_prompt (code_contents : dict) : str :=
  match code_contents with
  | [] => NO_CONTENT
  | _ =>
      fold_left
        (fun prompt_string (item : str * str) =>
           let (file_path, content) := item in
           let prompt_string :=
             prompt_string ++ (lit "--- File: " ++ file_path ++ lit " ---" ++ nl) in
           prompt_string ++ (FENCE ++ nl ++ content ++ nl ++ FENCE ++ nl ++ nl))
        code_contents HEADER
  end.

(** ** Backend adapters *)

Inductive exn :=
| ValueError (msg : str)
| TypeError
| KeyError
| AttributeError
| OSError (msg : str)            (* [IOError] is the same class *)
| ClientError (msg : str).       (* raised inside a provider's client library *)

Inductive result (A : Type) :=
| Ret (a : A)
| Raise (e : exn).
Arguments Ret {A} a.
Arguments Raise {A} e.

(** Values a backend can hand back: what [json] decoding produces. *)
Inductive value :=
| VNone
| VBool (b : bool)
| VNum (nonzero : bool)           (* a number; only its truth value matters *)
| VStr (s : str)
| VList (items : list value)
| VDict (fields : list (str * value)).

(** What a provider's client call does: raise, or answer with a completion
    whose text is optional ([response.text],
    [response.choices[0].message.content]). *)
Inductive client_outcome :=
| ClientRaises (e : exn)
| ClientAnswers (content : option str).

(** What the HTTP exchange with the local server does, step by step. *)
Inductive http_outcome :=
| PostTimeout             (* [requests.post] raises [Timeout] *)
| PostRequestException    (* [requests.post] raises another [RequestException] *)
| HttpErrorStatus         (* [raise_for_status] raises [HTTPError] *)
| BodyNotJson             (* [response.json()] raises [JSONDecodeError] *)
| Body (res : value).     (* the decoded body *)

Definition MSG_NONE : str := lit "The response content is None.".

(** [if not content: raise ValueError(...)], then [return content]. *)
Definition require_content (content : option str) : result value :=
  match content with
  | None => Raise (ValueError MSG_NONE)
  | Some [] => Raise (ValueError MSG_NONE)
  | Some c => Ret (VStr c)
  end.

Definition generate_with_gemini (prompt_content : str)
           (client : str -> client_outcome) : result value :=
  match client prompt_content with
  | ClientRaises e => Raise e
  | ClientAnswers content => require_content content
  end.

Definition generate_with_openai (prompt_content : str)
           (client : str -> client_outcome) : result value :=
  match client prompt_content with
  | ClientRaises e => Raise e
  | ClientAnswers content => require_content content
  end.

Definition generate_with_groq (prompt_content : str)
           (client : str -> client_outcome) : result value :=
  match client prompt_content with
  | ClientRaises e => Raise e
  | ClientAnswers content => require_content content
  end.

(** What the [chat] call of the local client does: raise, or answer with a
    response whose message has a content entry (null or a string) or has
    none. *)
Inductive content_entry :=
| Omitted
| Present (content : option str).

Inductive chat_outcome :=
| ChatRaises (e : exn)
| ChatAnswers (entry : content_entry).

(** [return response['message']['content']], nothing checked or caught:
    subscripting the message with a key it was not given raises
    [KeyError]. *)
Definition generate_with_ollama_api (formatted_prompt_content : str)
           (client : str -> chat_outcome) : result value :=
  match client formatted_prompt_content with
  | ChatRaises e => Raise e
  | ChatAnswers Omitted => Raise KeyError
  | ChatAnswers (Present None) => Ret VNone
  | ChatAnswers (Present (Some c)) => Ret (VStr c)
  end.

(** [sub in s] on strings. *)
Fixpoint contains (s sub : str) : bool :=
  startswith s sub
  || match s with
     | [] => false
     | _ :: s' => contains s' sub
     end.

Definition is_str (key : str) (v : value) : bool :=
  match v with
  | VStr s => eqb s key
  | _ => false
  end.

Fixpoint lookup (key : str) (fields : list (str * value)) : option value :=
  match fields with
  | [] => None
  | (k, v) :: fields' => if eqb k key then Some v else lookup key fields'
  end.

(** [key in v] for a string [key]. *)
Definition py_in (key : str) (v : value) : result bool :=
  match v with
  | VDict fields =>
      Ret (match lookup key fields with Some _ => true | None => false end)
  | VList items => Ret (existsb (is_str key) items)
  | VStr s => Ret (contains s key)
  | _ => Raise TypeError
  end.

(** [v[key]] for a string [key]. *)
Definition py_getitem (v : value) (key : str) : result value :=
  match v with
  | VDict fields =>
      match lookup key fields with
      | Some x => Ret x
      | None => Raise KeyError
      end
  | _ => Raise TypeError
  end.

Definition bind (A B : Type) (r : result A) (k : A -> result B) : result B :=
  match r with
  | Ret a => k a
  | Raise e => Raise e
  end.

Notation "x <- r ;; k" := (bind r (fun x => k))
  (at level 61, r at next level, right associativity).

Definition MESSAGE : str := lit "message".
Definition CONTENT : str := lit "content".

(** The [try] body of [generate_with_ollama] once the body is decoded. *)
Definition ollama_body (res : value) : result value :=
  has_message <- py_in MESSAGE res ;;
  if has_message then
    message <- py_getitem res MESSAGE ;;
    has_content <- py_in CONTENT message ;;
    if has_content then py_getitem message CONTENT
    else Ret (VStr [])
  else Ret (VStr []).

(** The three [except] clauses catch [Timeout], [RequestException] and
    [json.JSONDecodeError]; any other exception leaves the function. *)
Definition generate_with_ollama (formatted_prompt_content : str)
           (server : str -> http_outcome) : result value :=
  match server formatted_prompt_content with
  | PostTimeout => Ret (VStr [])
  | PostRequestException => Ret (VStr [])
  | HttpErrorStatus => Ret (VStr [])
  | BodyNotJson => Ret (VStr [])
  | Body res => ollama_body res
  end.

(** The adapters of the file, and each one run against a remote. *)
Inductive backend := Gemini | OpenAI | Groq | Ollama | OllamaApi.

(** What each remote does with a request carrying a given prompt. *)
Record remotes := mkRemotes {
  gemini_call : str -> client_outcome;
  openai_call : str -> client_outcome;
  groq_call : str -> client_outcome;
  ollama_chat : str -> chat_outcome;
  ollama_http : str -> http_outcome
}.

Definition run_backend (b : backend) (prompt_content : str) (w : remotes)
  : result value :=
  match b with
  | Gemini => generate_with_gemini prompt_content (gemini_call w)
  | OpenAI => generate_with_openai prompt_content (openai_call w)
  | Groq => generate_with_groq prompt_content (groq_call w)
  | Ollama => generate_with_ollama prompt_content (ollama_http w)
  | OllamaApi => generate_with_ollama_api prompt_content (ollama_chat w)
  end.

(** Truth value of an optional string argument. *)
Definition given (key : option str) : bool :=
  match key with
  | Some (_ :: _) => true
  | _ => false
  end.

Definition select_backend (gemini_api_key openai_api_key groq_api_key : option str)
  : backend :=
  if given gemini_api_key then Gemini
  else if given openai_api_key then OpenAI
  else if given groq_api_key then Groq
  else Ollama.

Definition handle_generation (prompt_content : str)
           (gemini_api_key openai_api_key groq_api_key : option str)
           (w : remotes) : result value :=
  run_backend (select_backend gemini_api_key openai_api_key groq_api_key)
              prompt_content w.

Definition raises (A : Type) (r : result A) : bool :=
  match r with
  | Raise _ => true
  | Ret _ => false
  end.

(** The decoded form of an optional text. *)
Definition value_of (content : option str) : value :=
  match content with
  | None => VNone
  | Some text => VStr text
  end.

(** The answer to the request of backend [b] carries the completion content
    [content]: the text of the client's answer, or the content entry of the
    message object in the local server's body, or the content entry given
    to the local client's message. *)
Definition completion_content (b : backend) (prompt_content : str)
           (w : remotes) (content : option str) : Prop :=
  match b with
  | Gemini => gemini_call w prompt_content = ClientAnswers content
  | OpenAI => openai_call w prompt_content = ClientAnswers content
  | Groq => groq_call w prompt_content = ClientAnswers content
  | Ollama =>
      exists fields inner,
        ollama_http w prompt_content = Body (VDict fields)
        /\ lookup MESSAGE fields = Some (VDict inner)
        /\ lookup CONTENT inner = Some (value_of content)
  | OllamaApi => ollama_chat w prompt_content = ChatAnswers (Present content)
  end.

(** A completion content that is [None] or the empty string. *)
Definition empty_content (content : option str) : Prop :=
  content = None \/ content = Some [].

(** ** The script body *)

Record arguments := mkArgs {
  directory : str;
  output_file : option str;
  arg_gemini_api_key : option str;
  arg_openai_api_key : option str;
  arg_groq_api_key : option str
}.

(** The surroundings of one run. *)
Record world := mkWorld {
  target : option node;                  (* what [--directory] denotes *)
  remote : remotes;
  write_file : str -> str -> option exn; (* [open(path, 'w')] and [f.write]:
                                            the exception raised, if any *)
  output_dir_exists : bool;              (* [os.path.isdir(output_dir)] *)
  makedirs : option exn;                 (* [os.makedirs(output_dir)] *)
  uuid4 : str
}.

Inductive termination :=
| Completed
| Uncaught (e : exn).

(** The outcome of a run.  [stderr] holds the messages that the script's own
    [print(..., file=sys.stderr)] calls have issued, not the progress bars
    nor the traceback that the interpreter prints for an uncaught
    exception. *)
Record run := mkRun {
  stderr : list str;
  written : option (str * str);          (* path and text of the artifact *)
  ending : termination
}.

Definition is_IOError (e : exn) : bool :=
  match e with
  | OSError _ => true
  | _ => false
  end.

Definition exn_str (e : exn) : str :=
  match e with
  | ValueError msg => msg
  | OSError msg => msg
  | ClientError msg => msg
  | TypeError => []
  | KeyError => []
  | AttributeError => []
  end.

(** Truth value of a decoded value ([if not ai_response_string]). *)
Definition truthy (v : value) : bool :=
  match v with
  | VNone => false
  | VBool b => b
  | VNum nonzero => nonzero
  | VStr s => match s with [] => false | _ => true end
  | VList items => match items with [] => false | _ => true end
  | VDict fields => match fields with [] => false | _ => true end
  end.

(** [clean_ai_output] on whatever the adapter returned: a falsy value gives
    the empty string, a string is cleaned, anything else has no
    [splitlines]. *)
Definition clean_returned (generated : value) : result str :=
  if negb (truthy generated) then Ret []
  else match generated with
       | VStr s => Ret (clean_ai_output s)
       | _ => Raise AttributeError
       end.

Definition OUTPUT_DIR : str := lit "/tmp/generated_readme".

Definition MSG_WRITE_ERROR (output_file : str) (e : exn) : str :=
  nl ++ lit "Error writing to output file " ++ output_file ++ lit ": " ++ exn_str e.

Definition save (args : arguments) (w : world) (err : list str)
           (raw_readme : str) : run :=
  if given (output_file args) then
    let path := match output_file args with Some p => p | None => [] end in
    match write_file w path raw_readme with
    | None => mkRun err (Some (path, raw_readme)) Completed
    | Some e =>
        if is_IOError e
        then mkRun (err ++ [MSG_WRITE_ERROR path e]) None Completed
        else mkRun err None (Uncaught e)
    end
  else
    let output_dir := OUTPUT_DIR in
    match (if output_dir_exists w then None else makedirs w) with
    | Some e => mkRun err None (Uncaught e)
    | None =>
        let output_filename := uuid4 w ++ lit ".md" in
        let output_path := OsPath.join output_dir output_filename in
        match write_file w output_path raw_readme with
        | None => mkRun err (Some (output_path, raw_readme)) Completed
        | Some e => mkRun err None (Uncaught e)
        end
    end.

Definition main (args : arguments) (w : world) : run :=
  let scanned := read_codebase (directory args) (target w) in
  let code_data := code_contents scanned in
  let err := diagnostics scanned in
  match code_data with
  | [] => mkRun err None Completed
  | _ =>
      let formatted_prompt_content := format_codebase_for_prompt code_data in
      match handle_generation formatted_prompt_content
                              (arg_gemini_api_key args) (arg_openai_api_key args)
                              (arg_groq_api_key args) (remote w) with
      | Raise e => mkRun err None (Uncaught e)
      | Ret generated_readme =>
          match clean_returned generated_readme with
          | Raise e => mkRun err None (Uncaught e)
          | Ret raw_readme => save args w err raw_readme
          end
      end
  end.

(** ** Vocabulary of the specification *)

(** Two texts are equal up to case when they lower to the same text. *)
Definition caseless_eq (a b : str) : Prop := lower a = lower b.

(** A fence line: stripped, it is a bare triple fence or a triple fence
    with the markdown label, up to case. *)
Definition fence_line (line : str) : Prop :=
  caseless_eq (strip line) FENCE \/ caseless_eq (strip line) FENCE_MARKDOWN.

(** The directory rule: the bare name is in the ignored-directory set, or
    it starts with a dot. *)
Definition dir_ignored_by_rule (name : str) : Prop :=
  In name IGNORE_DIRS \/ startswith name DOT = true.

(** Two trees that are the same except for what lies inside one
    sub-directory, at any depth, whose name the directory rule ignores. *)
Inductive differ_inside_ignored : node -> node -> Prop :=
| differ_here (before after : listing) (name : str) (a b : listing) :
    dir_ignored_by_rule name ->
    differ_inside_ignored (Dir (before ++ (name, Dir a) :: after))
                          (Dir (before ++ (name, Dir b) :: after))
| differ_below (before after : listing) (name : str) (x y : node) :
    differ_inside_ignored x y ->
    differ_inside_ignored (Dir (before ++ (name, x) :: after))
                          (Dir (before ++ (name, y) :: after)).

(** The extension in the words of the specification: the substring from the
    last dot to the end, the dot included (empty without a dot). *)
Definition extension_from_last_dot (name : str) : str :=
  match OsPath.rfind OsPath.EXTSEP name with
  | Some i => skipn i name
  | None => []
  end.

(** The file rule in the words of the specification. *)
Definition file_ignored_by_rule (name : str) : Prop :=
  In name IGNORE_FILES
  \/ startswith name DOT = true
  \/ In (extension_from_last_dot name) IGNORE_EXTENSIONS.

(** The section of the prompt document for one entry: a marker line naming
    the file, the content inside a generic fenced block, a blank line. *)
Definition marker_line (file_path : str) : str :=
  lit "--- File: " ++ file_path ++ lit " ---" ++ nl.
Definition fenced_block (content : str) : str :=
  FENCE ++ nl ++ content ++ nl ++ FENCE ++ nl.
Definition blank_line : str := nl.
Definition prompt_section (entry : str * str) : str :=
  marker_line (fst entry) ++ fenced_block (snd entry) ++ blank_line.

(** The guard of the removal in [clean_ai_output], on the list of lines. *)
Definition strips (lines : list str) : bool :=
  let starts_with_fence :=
    eqb (lower (strip (first_item lines))) FENCE_MARKDOWN
    || eqb (strip (first_item lines)) FENCE in
  starts_with_fence
  && (starts_with_fence && eqb (lower (strip (last_item lines))) FENCE)
  && (2 <=? length lines).

(** ** Sample inputs *)

Definition EXAMPLE_FENCED : str :=
  lit "```markdown" ++ nl ++ lit "BODY" ++ nl ++ lit "```".

Definition EXAMPLE_EMPTY_FENCE : str := lit "```" ++ nl ++ lit "```".

Definition EXAMPLE_FILESET : dict :=
  [(lit "main.py", lit "print(1)"); (lit "src/util.py", lit "x = 2")].

(** A project with [main.py] and a dependency directory, and the same
    project with the dependency directory empty. *)
Definition EXAMPLE_PROJECT : node :=
  Dir [(lit "main.py", File (ReadOk (lit "print(1)")));
       (lit "node_modules", Dir [(lit "lib.js", File (ReadOk (lit "x")))])].
Definition EXAMPLE_PROJECT_BARE : node :=
  Dir [(lit "main.py", File (ReadOk (lit "print(1)")));
       (lit "node_modules", Dir [])].

(** A directory whose only file cannot be read, and one with an object
    file next to its source. *)
Definition EXAMPLE_UNREADABLE : node :=
  Dir [(lit "main.py", File (ReadError (lit "Permission denied")))].
Definition EXAMPLE_SIBLINGS (content : str) : node :=
  Dir [(lit "lib.o", File (ReadOk content)); (lit "lib.c", File (ReadOk content))].

(** A run on the sample project with a Gemini key, in surroundings where
    every attempt to open a file for writing is refused; once without and
    once with an explicit output path. *)
Definition EXAMPLE_REMOTES : remotes :=
  let answers := fun _ : str => ClientAnswers (Some (lit "# Title")) in
  mkRemotes answers answers answers
            (fun _ => ChatAnswers (Present (Some (lit "# Title"))))
            (fun _ => PostTimeout).
(** Remotes whose completion content is null. *)
Definition EXAMPLE_REMOTES_NULL : remotes :=
  let null := fun _ : str => ClientAnswers None in
  mkRemotes null null null (fun _ => ChatAnswers (Present None))
            (fun _ => Body (VDict [(MESSAGE, VDict [(CONTENT, VNone)])])).
Definition EXAMPLE_DENIED : exn := OSError (lit "[Errno 13] Permission denied").
Definition EXAMPLE_WORLD_READONLY : world :=
  mkWorld (Some EXAMPLE_PROJECT) EXAMPLE_REMOTES
          (fun _ _ => Some EXAMPLE_DENIED) true None (lit "1b4e28ba").
Definition EXAMPLE_ARGS_DEFAULT : arguments :=
  mkArgs (lit "proj") None (Some (lit "KEY")) None None.
Definition EXAMPLE_ARGS_EXPLICIT : arguments :=
  mkArgs (lit "proj") (Some (lit "out/README.md")) (Some (lit "KEY")) None None.

Definition EXAMPLE_PLAIN : str := lit "# Title" ++ nl ++ lit "Some text." ++ nl.

(** ** Vocabulary for the further properties *)

(** The entry a walked file contributes to the dictionary, if any. *)
Definition stored_entry (f : walked_file) : list (str * str) :=
  let '(root, filename, r) := f in
  match r with
  | ReadOk content =>
      if file_ignored filename then []
      else [(relative_path_of root filename, content)]
  | ReadError _ => []
  end.

(** The entries of all walked files, in the order of the walk. *)
Definition stored_entries (target : option node) : list (str * str) :=
  flat_map stored_entry (walked_files target).

(** Assignments [d[k] = v] carried out in sequence. *)
Definition set_entries (d : dict) (entries : list (str * str)) : dict :=
  fold_left (fun d (e : str * str) => dict_set d (fst e) (snd e)) entries d.

(** The adapters reached through a credential. *)
Definition hosted_backends : list backend := [Gemini; OpenAI; Groq].

(** A client answer without text: [None] or the empty string. *)
Definition content_missing (o : client_outcome) : Prop :=
  o = ClientAnswers None \/ o = ClientAnswers (Some []).

(** The failures of the HTTP exchange that happen before a body is decoded. *)
Definition transport_failure (o : http_outcome) : Prop :=
  o = PostTimeout \/ o = PostRequestException \/ o = HttpErrorStatus
  \/ o = BodyNotJson.

(** The prompt handed to the backend in a run. *)
Definition prompt_of (args : arguments) (w : world) : str :=
  format_codebase_for_prompt (FileSet (directory args) (target w)).

(** A decoded value on which [in] is not defined. *)
Definition not_a_container (v : value) : Prop :=
  match v with
  | VNone | VBool _ | VNum _ => True
  | _ => False
  end.

(** Surroundings in which every write succeeds, and runs with other
    credentials. *)
Definition EXAMPLE_WORLD_WRITABLE : world :=
  mkWorld (Some EXAMPLE_PROJECT) EXAMPLE_REMOTES (fun _ _ => None)
          false None (lit "1b4e28ba").
Definition EXAMPLE_REMOTES_SILENT : remotes :=
  let empty := fun _ : str => ClientAnswers (Some []) in
  mkRemotes empty empty empty (fun _ => ChatAnswers (Present (Some [])))
            (fun _ => Body VNone).
Definition EXAMPLE_WORLD_SILENT : world :=
  mkWorld (Some EXAMPLE_PROJECT) EXAMPLE_REMOTES_SILENT (fun _ _ => None)
          true None (lit "1b4e28ba").
Definition EXAMPLE_WORLD_OFFLINE : world :=
  mkWorld (Some EXAMPLE_PROJECT) EXAMPLE_REMOTES (fun _ _ => None)
          true None (lit "1b4e28ba").
Definition EXAMPLE_ARGS_OPENAI : arguments :=
  mkArgs (lit "proj") None (Some []) (Some (lit "KEY")) None.
Definition EXAMPLE_ARGS_LOCAL : arguments :=
  mkArgs (lit "proj") (Some (lit "README.md")) None None None.

(** A returned value that is truthy and not a string. *)
Definition truthy_non_string (v : value) : Prop :=
  truthy v = true /\ forall text, v <> VStr text.

Definition EXAMPLE_REMOTES_NUMBER : remotes :=
  let answers := fun _ : str => ClientAnswers (Some (lit "# Title")) in
  mkRemotes answers answers answers
            (fun _ => ChatAnswers (Present (Some (lit "# Title"))))
            (fun _ => Body (VDict [(MESSAGE, VDict [(CONTENT, VNum true)])])).
Definition EXAMPLE_WORLD_NUMBER : world :=
  mkWorld (Some EXAMPLE_PROJECT) EXAMPLE_REMOTES_NUMBER (fun _ _ => None)
          true None (lit "1b4e28ba").

(** A project with a source directory listed between two files. *)
Definition EXAMPLE_NESTED : node :=
  Dir [(lit "b.py", File (ReadOk (lit "b")));
       (lit "src", Dir [(lit "a.py", File (ReadOk (lit "inner")));
                        (lit ".env", File (ReadOk (lit "SECRET")))]);
       (lit "a.py", File (ReadOk (lit "outer")));
       (lit "notes.yml", File (ReadOk (lit "k: v")))].

(** * Verification *)


(** ** Strings *)

Section StringFacts.

Lemma eqb_eq (a b : str) : eqb a b = true <-> a = b.
Proof.
  revert b; induction a as [|x a IH]; intros [|y b]; simpl;
    try (split; [discriminate | congruence]); [tauto|].
  rewrite andb_true_iff, N.eqb_eq, IH.
  split; [intros [-> ->]; reflexivity | intros H; injection H; auto].
Qed.

Lemma eqb_refl (a : str) : eqb a a = true.
Proof. apply eqb_eq; reflexivity. Qed.

Lemma eqb_neq (a b : str) : eqb a b = false <-> a <> b.
Proof.
  destruct (eqb a b) eqn:E.
  - apply eqb_eq in E. split; [discriminate | contradiction].
  - split; [|reflexivity]. intros _ H. apply eqb_eq in H. congruence.
Qed.

Lemma mem_In (x : str) (set : list str) : mem x set = true <-> In x set.
Proof.
  unfold mem. rewrite existsb_exists. split.
  - intros (y & Hy & E). apply eqb_eq in E. subst; assumption.
  - intros H. exists x. split; [assumption | apply eqb_refl].
Qed.

(** Joining the lines of [splitlines] gives the text back: two steps of the
    text at a time, as a CR LF pair is consumed at once. *)
Lemma concat_splitlines_two (s : str) :
  concat (splitlines s) = s /\ forall c, concat (splitlines (c :: s)) = c :: s.
Proof.
  induction s as [|d s [IH1 IH2]].
  - split; [reflexivity|]. intros c. simpl. destruct (is_linebreak c); reflexivity.
  - split; [apply IH2|]. intros c.
    change (splitlines (c :: d :: s)) with
      (if is_linebreak c
       then if N.eqb c CR && N.eqb d LF then [c; d] :: splitlines s
            else [c] :: splitlines (d :: s)
       else match splitlines (d :: s) with
            | [] => [[c]]
            | l :: ls => (c :: l) :: ls
            end).
    destruct (is_linebreak c).
    + destruct (N.eqb c CR && N.eqb d LF); rewrite concat_cons.
      * rewrite IH1. reflexivity.
      * rewrite (IH2 d). reflexivity.
    + specialize (IH2 d). destruct (splitlines (d :: s)) as [|l ls].
      * discriminate IH2.
      * rewrite concat_cons in *. simpl. rewrite IH2. reflexivity.
Qed.

Lemma concat_splitlines (s : str) : concat (splitlines s) = s.
Proof. apply concat_splitlines_two. Qed.

Lemma splitlines_nil (s : str) : splitlines s = [] -> s = [].
Proof.
  intros H. rewrite <- (concat_splitlines s), H. reflexivity.
Qed.

(** Only the backtick lowers to a backtick. *)
Lemma lower_char_backtick (c : char) (rest rest' : str) :
  lower_char c ++ rest = 96%N :: rest' -> c = 96%N /\ rest = rest'.
Proof.
  unfold lower_char.
  repeat match goal with
         | |- context [if ?b then _ else _] => destruct b eqn:?
         end; simpl; intros H; injection H as H1 H2;
    try (split; assumption);
    repeat match goal with
           | H : _ && _ = true |- _ => apply andb_true_iff in H; destruct H
           | H : (_ <=? _)%N = true |- _ => apply N.leb_le in H
           | H : (_ =? _)%N = true |- _ => apply N.eqb_eq in H
           end; subst; try discriminate; lia.
Qed.

Lemma lower_fence (t : str) : lower t = FENCE -> t = FENCE.
Proof.
  unfold lower, FENCE. simpl lit.
  destruct t as [|a t]; [discriminate|]. simpl.
  intros H. apply lower_char_backtick in H as [-> H].
  destruct t as [|b t]; [discriminate|]. simpl in H.
  apply lower_char_backtick in H as [-> H].
  destruct t as [|c t]; [discriminate|]. simpl in H.
  apply lower_char_backtick in H as [-> H].
  destruct t as [|d t]; [reflexivity|]. simpl in H.
  unfold lower_char in H.
  repeat match type of H with
         | context [if ?b then _ else _] => destruct b
         end; discriminate.
Qed.

End StringFacts.

(** ** Output Sanitizer *)

Section Sanitizer.

Lemma clean_ai_output_cases (s : str) :
  clean_ai_output s =
  if strips (splitlines s) then concat (slice_1_m1 (splitlines s)) else s.
Proof.
  destruct s as [|c s]; [reflexivity|].
  unfold clean_ai_output, strips, join_empty.
  destruct (splitlines (c :: s)) as [|l ls] eqn:E.
  - apply splitlines_nil in E. discriminate.
  - rewrite <- E. destruct (_ && _ && (2 <=? _)); [reflexivity|].
    apply concat_splitlines.
Qed.

Lemma ends_of_list (A : Type) (d : A) (l : list A) :
  2 <= length l -> l = hd d l :: slice_1_m1 l ++ [last l d].
Proof.
  destruct l as [|a [|b l]]; cbn [length]; try lia. intros _.
  unfold slice_1_m1. cbn [tl hd]. f_equal.
  change (last (a :: b :: l) d) with (last (b :: l) d).
  apply app_removelast_last. discriminate.
Qed.

Lemma opening_fence (line : str) :
  eqb (lower (strip line)) FENCE_MARKDOWN || eqb (strip line) FENCE = true
  <-> fence_line line.
Proof.
  unfold fence_line, caseless_eq.
  rewrite orb_true_iff, !eqb_eq.
  change (lower FENCE) with FENCE.
  change (lower FENCE_MARKDOWN) with FENCE_MARKDOWN.
  split; intros [H|H].
  - right. assumption.
  - left. rewrite H. reflexivity.
  - right. apply lower_fence. assumption.
  - left. assumption.
Qed.

Lemma strips_true (lines : list str) :
  strips lines = true <->
  fence_line (first_item lines)
  /\ caseless_eq (strip (last_item lines)) FENCE
  /\ 2 <= length lines.
Proof.
  unfold strips. rewrite !andb_true_iff, opening_fence, eqb_eq, Nat.leb_le.
  unfold caseless_eq. change (lower FENCE) with FENCE. tauto.
Qed.

(** The result is the input, or the input without its first and last line. *)
Lemma clean_ai_output_two_shapes (s : str) :
  clean_ai_output s = s
  \/ exists first middle final,
       splitlines s = first :: middle ++ [final]
       /\ clean_ai_output s = concat middle.
Proof.
  rewrite clean_ai_output_cases.
  destruct (strips (splitlines s)) eqn:E; [right | left; reflexivity].
  apply strips_true in E as (_ & _ & Hlen).
  exists (hd [] (splitlines s)), (slice_1_m1 (splitlines s)),
         (last (splitlines s) []).
  split; [apply ends_of_list; assumption | reflexivity].
Qed.

(** C2: when the text has at least two lines, its first line stripped is, up
    to case, a bare or markdown-tagged triple fence, and its last line
    stripped is a bare triple fence, [clean_ai_output] returns the text
    without its first and last lines, every other line kept verbatim with
    its terminator; and the fenced BODY example gives BODY and a newline. *)
Theorem clean_ai_output_removes_enclosing_fences :
  (forall s : str,
      2 <= length (splitlines s) ->
      fence_line (first_item (splitlines s)) ->
      strip (last_item (splitlines s)) = FENCE ->
      exists first middle final,
        splitlines s = first :: middle ++ [final]
        /\ s = first ++ concat middle ++ final
        /\ clean_ai_output s = concat middle)
  /\ clean_ai_output EXAMPLE_FENCED = lit "BODY" ++ nl.
Proof.
  split; [|reflexivity].
  intros s Hlen Hfirst Hlast.
  exists (hd [] (splitlines s)), (slice_1_m1 (splitlines s)),
         (last (splitlines s) []).
  pose proof (ends_of_list [] (splitlines s) Hlen) as Hl.
  split; [exact Hl|]. split.
  - rewrite <- (concat_splitlines s) at 1. rewrite Hl at 1.
    rewrite concat_cons, concat_app. simpl. rewrite app_nil_r. reflexivity.
  - rewrite clean_ai_output_cases.
    replace (strips (splitlines s)) with true; [reflexivity|].
    symmetry. apply strips_true. repeat split; try assumption.
    unfold caseless_eq. unfold last_item in Hlast. unfold last_item.
    rewrite Hlast. reflexivity.
Qed.

Lemma clean_ai_output_removes_enclosing_fences_witness :
  2 <= length (splitlines EXAMPLE_FENCED)
  /\ fence_line (first_item (splitlines EXAMPLE_FENCED))
  /\ strip (last_item (splitlines EXAMPLE_FENCED)) = FENCE
  /\ exists first middle final,
       splitlines EXAMPLE_FENCED = first :: middle ++ [final]
       /\ EXAMPLE_FENCED = first ++ concat middle ++ final
       /\ clean_ai_output EXAMPLE_FENCED = concat middle.
Proof.
  assert (H1 : 2 <= length (splitlines EXAMPLE_FENCED)) by (vm_compute; lia).
  assert (H2 : fence_line (first_item (splitlines EXAMPLE_FENCED)))
    by (right; reflexivity).
  assert (H3 : strip (last_item (splitlines EXAMPLE_FENCED)) = FENCE)
    by reflexivity.
  refine (conj H1 (conj H2 (conj H3 _))).
  exact (proj1 clean_ai_output_removes_enclosing_fences EXAMPLE_FENCED H1 H2 H3).
Defined.

(** C8: the empty text is mapped to the empty text; a text none of whose
    lines is a fence line is returned unchanged, so cleaning it a second
    time changes nothing. *)
Theorem clean_ai_output_fixes_clean_text (x : str) :
  (forall line, In line (splitlines x) -> ~ fence_line line) ->
  clean_ai_output [] = []
  /\ clean_ai_output x = x
  /\ clean_ai_output (clean_ai_output x) = clean_ai_output x.
Proof.
  intros Hclean.
  assert (Hx : clean_ai_output x = x).
  { rewrite clean_ai_output_cases.
    destruct (strips (splitlines x)) eqn:E; [|reflexivity].
    apply strips_true in E as (Hfirst & _ & Hlen). exfalso.
    apply (Hclean (first_item (splitlines x))); [|assumption].
    unfold first_item. destruct (splitlines x); simpl in *; [lia | auto]. }
  split; [reflexivity|]. split; [assumption|].
  rewrite Hx. assumption.
Qed.

Lemma clean_ai_output_fixes_clean_text_witness :
  (forall line, In line (splitlines EXAMPLE_PLAIN) -> ~ fence_line line)
  /\ clean_ai_output EXAMPLE_PLAIN = EXAMPLE_PLAIN
  /\ clean_ai_output (clean_ai_output EXAMPLE_PLAIN) = clean_ai_output EXAMPLE_PLAIN.
Proof.
  assert (H : forall line, In line (splitlines EXAMPLE_PLAIN) -> ~ fence_line line).
  { intros line Hin [E|E]; unfold caseless_eq in E;
      vm_compute in Hin; destruct Hin as [<-|[<-|[]]]; vm_compute in E;
      discriminate E. }
  split; [exact H|].
  exact (proj2 (clean_ai_output_fixes_clean_text EXAMPLE_PLAIN H)).
Defined.

(** C9: [clean_ai_output] returns its input unchanged or its input without
    the first and the last line, nothing else; a one-line input, a lone
    fence included, is returned unchanged; and a two-line input made of an
    opening fence and a closing fence gives the empty text. *)
Theorem clean_ai_output_only_two_shapes :
  (forall s : str,
      clean_ai_output s = s
      \/ exists first middle final,
           splitlines s = first :: middle ++ [final]
           /\ clean_ai_output s = concat middle)
  /\ (forall s : str, length (splitlines s) = 1 -> clean_ai_output s = s)
  /\ clean_ai_output FENCE = FENCE
  /\ (forall s opening closing : str,
         splitlines s = [opening; closing] ->
         fence_line opening ->
         caseless_eq (strip closing) FENCE ->
         clean_ai_output s = []).
Proof.
  split; [exact clean_ai_output_two_shapes|].
  split; [|split; [reflexivity|]].
  - intros s Hlen. rewrite clean_ai_output_cases.
    destruct (strips (splitlines s)) eqn:E; [|reflexivity].
    apply strips_true in E as (_ & _ & H). lia.
  - intros s opening closing Hs Hopen Hclose.
    rewrite clean_ai_output_cases.
    replace (strips (splitlines s)) with true.
    + rewrite Hs. reflexivity.
    + symmetry. apply strips_true. rewrite Hs. simpl. auto.
Qed.

Lemma clean_ai_output_only_two_shapes_witness :
  (length (splitlines FENCE) = 1 /\ clean_ai_output FENCE = FENCE)
  /\ (splitlines EXAMPLE_EMPTY_FENCE = [FENCE ++ nl; FENCE]
      /\ fence_line (FENCE ++ nl)
      /\ caseless_eq (strip FENCE) FENCE
      /\ clean_ai_output EXAMPLE_EMPTY_FENCE = []).
Proof.
  assert (H1 : length (splitlines FENCE) = 1) by reflexivity.
  assert (H2 : splitlines EXAMPLE_EMPTY_FENCE = [FENCE ++ nl; FENCE])
    by reflexivity.
  assert (H3 : fence_line (FENCE ++ nl)) by (left; reflexivity).
  assert (H4 : caseless_eq (strip FENCE) FENCE) by reflexivity.
  refine (conj (conj H1 _) (conj H2 (conj H3 (conj H4 _)))).
  - exact (proj1 (proj2 clean_ai_output_only_two_shapes) FENCE H1).
  - exact (proj2 (proj2 (proj2 clean_ai_output_only_two_shapes))
                 EXAMPLE_EMPTY_FENCE _ _ H2 H3 H4).
Defined.

End Sanitizer.

(** ** Prompt Assembler *)

Section Assembler.

Lemma format_loop (code_contents : dict) (prompt_string : str) :
  fold_left
    (fun prompt_string (item : str * str) =>
       let (file_path, content) := item in
       let prompt_string :=
         prompt_string ++ (lit "--- File: " ++ file_path ++ lit " ---" ++ nl) in
       prompt_string ++ (FENCE ++ nl ++ content ++ nl ++ FENCE ++ nl ++ nl))
    code_contents prompt_string
  = prompt_string ++ concat (map prompt_section code_contents).
Proof.
  revert prompt_string.
  induction code_contents as [|[file_path content] rest IH]; intros prompt_string.
  - simpl. rewrite app_nil_r. reflexivity.
  - cbn [fold_left map]. rewrite IH, concat_cons.
    unfold prompt_section, marker_line, fenced_block, blank_line. cbn [fst snd].
    repeat rewrite <- app_assoc. reflexivity.
Qed.

(** C7: for the empty FileSet the result is the fixed no-content sentence,
    which is not the empty string; for a non-empty FileSet it is the
    constant header followed, entry by entry in FileSet order, by the
    marker line of the path, the content in a generic fenced block and a
    blank line. *)
Theorem format_codebase_for_prompt_document :
  format_codebase_for_prompt [] = NO_CONTENT
  /\ NO_CONTENT <> []
  /\ (forall code_contents : dict,
         code_contents <> [] ->
         format_codebase_for_prompt code_contents
         = HEADER ++ concat (map prompt_section code_contents)).
Proof.
  split; [reflexivity|]. split; [discriminate|].
  intros [|entry rest] Hne; [contradiction|].
  unfold format_codebase_for_prompt. apply format_loop.
Qed.

Lemma format_codebase_for_prompt_document_witness :
  EXAMPLE_FILESET <> []
  /\ format_codebase_for_prompt EXAMPLE_FILESET
     = HEADER ++ concat (map prompt_section EXAMPLE_FILESET).
Proof.
  assert (H : EXAMPLE_FILESET <> []) by discriminate.
  refine (conj H _).
  exact (proj2 (proj2 format_codebase_for_prompt_document) EXAMPLE_FILESET H).
Defined.

End Assembler.

(** ** Tree Walker *)

Section Walker.

(** Induction over a directory tree. *)
Fixpoint node_induction (P : node -> Prop)
         (HFile : forall r, P (File r))
         (HDir : forall entries,
             Forall (fun entry => P (snd entry)) entries -> P (Dir entries))
         (n : node) : P n :=
  match n with
  | File r => HFile r
  | Dir entries =>
      HDir entries
           ((fix all (es : listing) : Forall (fun entry => P (snd entry)) es :=
               match es with
               | [] => Forall_nil _
               | (name, child) :: es' =>
                   @Forall_cons _ (fun entry => P (snd entry)) (name, child) es'
                                (node_induction P HFile HDir child) (all es')
               end) entries)
  end.

Lemma dir_kept_false (name : str) :
  dir_kept name = false <-> dir_ignored_by_rule name.
Proof.
  unfold dir_kept, dir_ignored_by_rule. rewrite <- mem_In.
  destruct (mem name IGNORE_DIRS), (startswith name DOT); simpl;
    intuition congruence.
Qed.

Lemma dir_names_app (a b : listing) :
  dir_names (a ++ b) = dir_names a ++ dir_names b.
Proof.
  induction a as [|[name [r|es]] a IH]; simpl; congruence.
Qed.

Lemma file_entries_app (a b : listing) :
  file_entries (a ++ b) = file_entries a ++ file_entries b.
Proof.
  induction a as [|[name [r|es]] a IH]; simpl; congruence.
Qed.

Lemma differ_inside_ignored_dirs (x y : node) :
  differ_inside_ignored x y -> exists ex ey, x = Dir ex /\ y = Dir ey.
Proof. intros []; eauto. Qed.

(** The walk yields the same items on two trees that differ only inside an
    ignored sub-directory. *)
Lemma os_walk_ignores (x y : node) :
  differ_inside_ignored x y ->
  forall top, os_walk dir_kept top x = os_walk dir_kept top y.
Proof.
  induction 1 as [before after name a b Hname
                 |before after name x y Hxy IH]; intros top.
  - apply dir_kept_false in Hname.
    cbn [os_walk]. rewrite !dir_names_app, !file_entries_app, !flat_map_app.
    cbn [dir_names file_entries flat_map]. rewrite Hname. reflexivity.
  - destruct (differ_inside_ignored_dirs Hxy) as (ex & ey & -> & ->).
    cbn [os_walk]. rewrite !dir_names_app, !file_entries_app, !flat_map_app.
    cbn [dir_names file_entries flat_map].
    rewrite (IH (top ++ [name])). reflexivity.
Qed.

(** Every directory the walk reaches lies below kept directories only. *)
Lemma os_walk_roots_kept (n : node) :
  forall top item,
    Forall (fun d => dir_kept d = true) top ->
    In item (os_walk dir_kept top n) ->
    Forall (fun d => dir_kept d = true) (fst (fst item)).
Proof.
  induction n as [r|entries IH] using node_induction; intros top item Htop Hin.
  - contradiction.
  - cbn [os_walk] in Hin. destruct Hin as [<-|Hin]; [exact Htop|].
    apply in_flat_map in Hin as ([name child] & Hentry & Hin).
    destruct (dir_kept name) eqn:Hkept; [|contradiction].
    rewrite Forall_forall in IH. apply (IH _ Hentry (top ++ [name]) item).
    + apply Forall_app. split; [exact Htop | constructor; [exact Hkept | constructor]].
    + exact Hin.
Qed.

Lemma walked_files_roots_kept (target : option node) (root : list str)
      (name : str) (r : read_result) :
  In (root, name, r) (walked_files target) ->
  Forall (fun d => ~ dir_ignored_by_rule d) root.
Proof.
  unfold walked_files. intros Hin.
  apply in_flat_map in Hin as ([[root' dirs] files] & Hitem & Hin).
  destruct target as [n|]; [|contradiction].
  apply (os_walk_roots_kept n (top := [])) in Hitem; [|constructor].
  cbn [files_of_item] in Hin. apply in_map_iff in Hin as (f & E & _).
  injection E as <- _ _. cbn [fst] in Hitem.
  eapply Forall_impl; [|exact Hitem].
  intros d Hkept Hrule. apply dir_kept_false in Hrule. congruence.
Qed.

End Walker.

(** ** Paths *)

Section PathFacts.

Import OsPath.

Lemma rfind_none (c : char) (s : str) : rfind c s = None <-> ~ In c s.
Proof.
  induction s as [|x s IH]; simpl; [tauto|].
  destruct (rfind c s) as [i|].
  - split; [discriminate|]. intros H. exfalso. apply H. right.
    destruct (in_dec N.eq_dec c s) as [Hin|Hout]; [assumption|].
    apply IH in Hout. discriminate.
  - destruct (N.eqb_spec x c) as [->|Hne].
    + split; [discriminate | intros H; exfalso; apply H; auto].
    + split; [|reflexivity]. intros _ [E|Hin]; [congruence|].
      apply (proj1 IH); [reflexivity | assumption].
Qed.

Lemma rfind_lt (c : char) (s : str) (i : nat) :
  rfind c s = Some i -> i < length s.
Proof.
  revert i; induction s as [|x s IH]; simpl; intros i; [discriminate|].
  destruct (rfind c s) as [j|].
  - intros E; injection E as <-. specialize (IH j eq_refl). lia.
  - destruct (N.eqb x c); [|discriminate]. intros E; injection E as <-. lia.
Qed.

Lemma rfind_app (c : char) (a b : str) :
  rfind c (a ++ b) =
  match rfind c b with
  | Some i => Some (length a + i)
  | None => rfind c a
  end.
Proof.
  induction a as [|x a IH]; simpl.
  - destruct (rfind c b); reflexivity.
  - rewrite IH. destruct (rfind c b); reflexivity.
Qed.

Lemma rfind_after_sep (pre name : str) :
  ~ In SEP name -> rfind SEP (pre ++ SEP :: name) = Some (length pre + 0).
Proof.
  intros H. apply rfind_none in H. rewrite rfind_app. simpl. rewrite H.
  reflexivity.
Qed.

Lemma skipn_past (A : Type) (pre : list A) (x : A) (rest : list A) :
  skipn (S (length pre + 0)) (pre ++ x :: rest) = rest.
Proof.
  rewrite Nat.add_0_r. induction pre as [|y pre IH]; [reflexivity | exact IH].
Qed.

Lemma basename_plain (name : str) : ~ In SEP name -> basename name = name.
Proof. intros H. apply rfind_none in H. unfold basename. rewrite H. reflexivity. Qed.

Lemma basename_after_sep (pre name : str) :
  ~ In SEP name -> basename (pre ++ SEP :: name) = name.
Proof.
  intros H. unfold basename. rewrite (@rfind_after_sep pre name H).
  apply skipn_past.
Qed.

Lemma endswith_char_sep (a : str) :
  endswith_char a SEP = true -> exists pre, a = pre ++ [SEP].
Proof.
  unfold endswith_char. destruct (rev a) as [|x l] eqn:E; [discriminate|].
  intros H. apply N.eqb_eq in H. subst x. exists (rev l).
  rewrite <- (rev_involutive a), E. reflexivity.
Qed.

(** A joined path is the file name itself, or ends with a separator and the
    file name. *)
Lemma join_shape (a name : str) :
  ~ In SEP name ->
  join a name = name \/ exists pre, join a name = pre ++ SEP :: name.
Proof.
  intros H. unfold join.
  destruct (startswith name [SEP]) eqn:Es.
  - left; reflexivity.
  - destruct a as [|x a]; [left; reflexivity|].
    destruct (endswith_char (x :: a) SEP) eqn:Ee; right.
    + apply endswith_char_sep in Ee as [pre ->]. exists pre.
      rewrite <- app_assoc. reflexivity.
    + exists (x :: a). reflexivity.
Qed.

Lemma basename_join (a name : str) :
  ~ In SEP name -> basename (join a name) = name.
Proof.
  intros H. destruct (@join_shape a name H) as [->|[pre ->]].
  - apply basename_plain; assumption.
  - apply basename_after_sep; assumption.
Qed.

(** The extension of a path is that of its last component. *)
Lemma splitext_after_sep (pre name : str) :
  ~ In SEP name ->
  snd (splitext (pre ++ SEP :: name)) = snd (splitext name).
Proof.
  intros H. unfold splitext.
  rewrite (@rfind_after_sep pre name H).
  rewrite (proj2 (rfind_none SEP name) H).
  rewrite rfind_app. cbn [rfind].
  destruct (rfind EXTSEP name) as [i|] eqn:Ed.
  - replace (length pre + S i <? S (length pre + 0)) with false
      by (symmetry; apply Nat.ltb_ge; lia).
    replace (i <? 0) with false by (symmetry; apply Nat.ltb_ge; lia).
    rewrite firstn_app_2. cbn [firstn]. rewrite skipn_past.
    replace (skipn (length pre + S i) (pre ++ SEP :: name)) with (skipn i name).
    + cbn [skipn].
      match goal with |- context [existsb ?f ?l] => destruct (existsb f l) end;
        reflexivity.
    + rewrite skipn_app.
      rewrite (@skipn_all2 _ (length pre + S i) pre) by lia.
      replace (length pre + S i - length pre) with (S i) by lia. reflexivity.
  - change (N.eqb SEP EXTSEP) with false. cbv iota.
    destruct (rfind EXTSEP pre) as [j|] eqn:Ep; [|reflexivity].
    apply rfind_lt in Ep.
    replace (j <? S (length pre + 0)) with true
      by (symmetry; apply Nat.ltb_lt; lia).
    reflexivity.
Qed.

Lemma splitext_join (a name : str) :
  ~ In SEP name -> snd (splitext (join a name)) = snd (splitext name).
Proof.
  intros H. destruct (@join_shape a name H) as [->|[pre ->]]; [reflexivity|].
  apply splitext_after_sep; assumption.
Qed.

Lemma rfind_zero (c x : char) (s : str) : rfind c (x :: s) = Some 0 -> x = c.
Proof.
  simpl. destruct (rfind c s); [discriminate|].
  destruct (N.eqb_spec x c); [auto | discriminate].
Qed.

(** For a file name without separator that does not start with a dot,
    [splitext] gives the substring from the last dot on. *)
Lemma splitext_extension (name : str) :
  ~ In SEP name -> startswith name DOT = false ->
  snd (splitext name) = extension_from_last_dot name.
Proof.
  intros Hsep Hdot. unfold splitext, extension_from_last_dot.
  rewrite (proj2 (rfind_none SEP name) Hsep).
  destruct (rfind EXTSEP name) as [i|] eqn:Ed; [|reflexivity].
  destruct name as [|c name]; [discriminate|].
  destruct i as [|i].
  - apply rfind_zero in Ed. subst c. cbn in Hdot. discriminate.
  - replace (S i <? 0) with false by reflexivity.
    cbn [skipn firstn existsb].
    cbn in Hdot. rewrite andb_true_r in Hdot.
    change (N.eqb c EXTSEP) with (N.eqb c 46). rewrite Hdot. reflexivity.
Qed.

End PathFacts.

(** ** Path Filter and the keys of the FileSet *)

Section FileSetKeys.

Lemma dict_set_keys (d : dict) (k v key : str) :
  In key (dict_keys (dict_set d k v)) <-> In key (dict_keys d) \/ key = k.
Proof.
  induction d as [|[k' v'] d IH]; simpl.
  - intuition.
  - destruct (eqb k' k) eqn:E; simpl.
    + apply eqb_eq in E. subst k'. intuition.
    + rewrite IH. tauto.
Qed.

Lemma visit_file_keys (relative_root : str) (st : scan)
      (f : str * read_result) (key : str) :
  In key (dict_keys (code_contents (visit_file relative_root st f)))
  <-> In key (dict_keys (code_contents st))
      \/ (file_ignored (fst f) = false
          /\ (exists content, snd f = ReadOk content)
          /\ key = OsPath.join relative_root (fst f)).
Proof.
  destruct f as [filename r]. unfold visit_file. cbn [fst snd].
  destruct (file_ignored filename).
  - intuition discriminate.
  - destruct r as [content|e]; cbn [code_contents].
    + rewrite dict_set_keys. intuition eauto.
    + split; [auto|]. intros [H|(_ & [c Hc] & _)]; [assumption | discriminate].
Qed.

Lemma visit_files_keys (relative_root : str) (files : list (str * read_result))
      (st : scan) (key : str) :
  In key (dict_keys (code_contents (fold_left (visit_file relative_root) files st)))
  <-> In key (dict_keys (code_contents st))
      \/ exists f, In f files
                   /\ file_ignored (fst f) = false
                   /\ (exists content, snd f = ReadOk content)
                   /\ key = OsPath.join relative_root (fst f).
Proof.
  revert st. induction files as [|f files IH]; intros st; cbn [fold_left].
  - split; [auto|]. intros [H|(f & [] & _)]; assumption.
  - rewrite IH, visit_file_keys. split.
    + intros [[H|H]|(g & Hg & H)]; [auto | right; exists f | right; exists g];
        simpl; tauto.
    + intros [H|(g & [<-|Hg] & H)]; [auto | auto | right; exists g; tauto].
Qed.

Lemma visit_dirs_keys (items : list walk_item) (st : scan) (key : str) :
  In key (dict_keys (code_contents (fold_left visit_dir items st)))
  <-> In key (dict_keys (code_contents st))
      \/ exists f, In f (flat_map files_of_item items)
                   /\ stored f /\ key = path_of_walked f.
Proof.
  revert st. induction items as [|[[root dirs] files] items IH]; intros st;
    cbn [fold_left flat_map].
  - split; [auto|]. intros [H|(f & [] & _)]; assumption.
  - rewrite IH.
    change (visit_dir st (root, dirs, files))
      with (fold_left (visit_file (relative_root_of root)) files st).
    rewrite visit_files_keys. split.
    + intros [[H|(f & Hf & Hi & Hr & Hk)]|(g & Hg & H)].
      * auto.
      * right. exists (root, fst f, snd f). split; [|split; [split|]]; auto.
        apply in_or_app. left. cbn [files_of_item].
        apply in_map_iff. exists f. auto.
      * right. exists g. split; [apply in_or_app; right; assumption | assumption].
    + intros [H|(g & Hg & [Hi Hr] & Hk)]; [auto|].
      apply in_app_or in Hg as [Hg|Hg].
      * left. right. cbn [files_of_item] in Hg.
        apply in_map_iff in Hg as (f & <- & Hf). exists f. auto.
      * right. exists g. split; [assumption | split; [split|]; assumption].
Qed.

(** The keys of the FileSet are the relative paths of the stored files. *)
Lemma FileSet_keys (directory_path : str) (target : option node) (key : str) :
  In key (dict_keys (FileSet directory_path target))
  <-> exists f, In f (walked_files target) /\ stored f /\ key = path_of_walked f.
Proof.
  unfold FileSet, read_codebase, walked_files.
  set (st1 := if negb (isdir target) then _ else _).
  assert (H1 : code_contents st1 = []) by (subst st1; destruct (negb _); reflexivity).
  transitivity
    (In key (dict_keys (code_contents
                          (fold_left visit_dir (os_walk_top dir_kept target) st1)))).
  - destruct (code_contents (fold_left visit_dir _ st1)) eqn:E;
      cbn [print_err code_contents]; rewrite ?E; reflexivity.
  - rewrite visit_dirs_keys, H1. simpl. tauto.
Qed.

Lemma file_ignored_rule (name : str) :
  ~ In OsPath.SEP name ->
  file_ignored name = true <-> file_ignored_by_rule name.
Proof.
  intros Hsep. unfold file_ignored, file_ignored_by_rule.
  rewrite <- !mem_In.
  destruct (mem name IGNORE_FILES); [simpl; tauto|].
  destruct (startswith name DOT) eqn:Hdot; [simpl; tauto|].
  cbn [orb]. rewrite (@splitext_extension name Hsep Hdot).
  intuition discriminate.
Qed.

Lemma NoDup_map_injective (A B : Type) (g : A -> B) (l : list A) (x y : A) :
  NoDup (map g l) -> In x l -> In y l -> g x = g y -> x = y.
Proof.
  induction l as [|a l IH]; [contradiction|].
  cbn [map]. intros Hnd [->|Hx] [->|Hy] E; inversion_clear Hnd as [|? ? Hout Hnd'].
  - reflexivity.
  - exfalso. apply Hout. rewrite E. apply in_map. assumption.
  - exfalso. apply Hout. rewrite <- E. apply in_map. assumption.
  - apply IH; assumption.
Qed.

Lemma not_ignored_by_rule (name : str) :
  ~ In OsPath.SEP name -> file_ignored name = false -> ~ file_ignored_by_rule name.
Proof.
  intros Hsep Hf Hrule. apply (@file_ignored_rule name Hsep) in Hrule. congruence.
Qed.

(** C6, as amended: among the files the walk comes across (names without
    path separator, distinct files under distinct relative paths), one that
    the rule ignores -- bare name in the ignored-file-name set, or name
    starting with a dot, or extension from the last dot in the
    ignored-extension set -- is absent from the FileSet, and one that the
    rule does not ignore is present exactly when it can be read; an object
    file is absent next to a source file with the same content. *)
Theorem read_codebase_file_rule
        (directory_path : str) (target : option node)
        (root : list str) (name : str) (r : read_result) :
  In (root, name, r) (walked_files target) ->
  NoDup (map path_of_walked (walked_files target)) ->
  ~ In OsPath.SEP name ->
  (file_ignored_by_rule name ->
   ~ In (relative_path_of root name) (dict_keys (FileSet directory_path target)))
  /\ (In (relative_path_of root name) (dict_keys (FileSet directory_path target))
      <-> ~ file_ignored_by_rule name /\ exists content, r = ReadOk content)
  /\ (forall content,
         FileSet directory_path (Some (EXAMPLE_SIBLINGS content))
         = [(lit "lib.c", content)]).
Proof.
  intros Hin Hnd Hsep.
  assert (Hiff : In (relative_path_of root name)
                    (dict_keys (FileSet directory_path target))
                 <-> ~ file_ignored_by_rule name /\ exists content, r = ReadOk content).
  { rewrite FileSet_keys. split.
    - intros (f & Hf & Hstored & Hkey).
      assert (f = (root, name, r)) as ->.
      { symmetry. apply (NoDup_map_injective path_of_walked _ _ _ Hnd Hin Hf).
        exact Hkey. }
      destruct Hstored as [Hi Hr]. cbn [fst snd] in Hi, Hr.
      split; [apply not_ignored_by_rule; assumption | assumption].
    - intros [Hrule Hr]. exists (root, name, r).
      split; [assumption|]. split; [|reflexivity]. split; [|exact Hr].
      cbn [fst snd]. destruct (file_ignored name) eqn:E; [|reflexivity].
      exfalso. apply Hrule. apply (@file_ignored_rule name Hsep). assumption. }
  split; [|split; [exact Hiff|]].
  - intros Hrule Hkey. apply Hiff in Hkey. tauto.
  - intros content. reflexivity.
Qed.

Lemma read_codebase_file_rule_witness :
  let target := Some (EXAMPLE_SIBLINGS (lit "x")) in
  In ([], lit "lib.o", ReadOk (lit "x")) (walked_files target)
  /\ NoDup (map path_of_walked (walked_files target))
  /\ ~ In OsPath.SEP (lit "lib.o")
  /\ file_ignored_by_rule (lit "lib.o")
  /\ ~ In (relative_path_of [] (lit "lib.o")) (dict_keys (FileSet (lit "proj") target)).
Proof.
  intros target.
  assert (H1 : In ([], lit "lib.o", ReadOk (lit "x")) (walked_files target))
    by (left; reflexivity).
  assert (H2 : NoDup (map path_of_walked (walked_files target))).
  { vm_compute. repeat constructor; simpl; intuition discriminate. }
  assert (H3 : ~ In OsPath.SEP (lit "lib.o")).
  { vm_compute. intuition discriminate. }
  assert (H4 : file_ignored_by_rule (lit "lib.o")).
  { right; right. vm_compute. auto. }
  refine (conj H1 (conj H2 (conj H3 (conj H4 _)))).
  exact (proj1 (read_codebase_file_rule (lit "proj") target _ _ _ H1 H2 H3) H4).
Defined.

(** C6, as stated, fails on a file that cannot be read: the rule does not
    ignore [main.py], yet it is absent from the FileSet. *)
Lemma read_codebase_file_rule_counterexample :
  let target := Some EXAMPLE_UNREADABLE in
  In ([], lit "main.py", ReadError (lit "Permission denied")) (walked_files target)
  /\ ~ (~ In (relative_path_of [] (lit "main.py"))
            (dict_keys (FileSet (lit "proj") target))
        <-> file_ignored_by_rule (lit "main.py")).
Proof.
  intros target. split; [left; reflexivity|].
  intros [Hex _].
  assert (Hsep : ~ In OsPath.SEP (lit "main.py"))
    by (vm_compute; intuition discriminate).
  apply (@not_ignored_by_rule (lit "main.py") Hsep); [reflexivity|].
  apply Hex. vm_compute. tauto.
Qed.

(** C10: with the default sets, no key of the FileSet has the file name
    Cargo.lock, Cargo.toml, package-lock.json or requirements.txt, and none
    has the extension .o, .dll, .exe or .yml (file names of the tree being
    free of path separators). *)
Theorem read_codebase_default_exclusions
        (directory_path : str) (target : option node) (key : str) :
  (forall root name r, In (root, name, r) (walked_files target) ->
                       ~ In OsPath.SEP name) ->
  In key (dict_keys (FileSet directory_path target)) ->
  Forall (fun excluded => OsPath.basename key <> excluded)
         [lit "Cargo.lock"; lit "Cargo.toml"; lit "package-lock.json";
          lit "requirements.txt"]
  /\ Forall (fun excluded => snd (OsPath.splitext key) <> excluded)
            [lit ".o"; lit ".dll"; lit ".exe"; lit ".yml"].
Proof.
  intros Hnames Hkey.
  apply FileSet_keys in Hkey as ([[root name] r] & Hin & [Hi _] & ->).
  specialize (Hnames root name r Hin).
  unfold path_of_walked, relative_path_of. cbn [fst snd] in *.
  rewrite (@basename_join (relative_root_of root) name Hnames).
  rewrite (@splitext_join (relative_root_of root) name Hnames).
  unfold file_ignored in Hi.
  destruct (mem name IGNORE_FILES) eqn:Hfile; [discriminate|].
  destruct (startswith name DOT); [discriminate|]. cbn [orb] in Hi.
  split; apply Forall_forall; intros excluded Hex E; subst excluded.
  - apply (mem_In name IGNORE_FILES) in Hex. congruence.
  - apply (mem_In _ IGNORE_EXTENSIONS) in Hex. congruence.
Qed.

Lemma read_codebase_default_exclusions_witness :
  let target := Some EXAMPLE_PROJECT in
  (forall root name r, In (root, name, r) (walked_files target) ->
                       ~ In OsPath.SEP name)
  /\ In (lit "main.py") (dict_keys (FileSet (lit "proj") target))
  /\ Forall (fun excluded => OsPath.basename (lit "main.py") <> excluded)
            [lit "Cargo.lock"; lit "Cargo.toml"; lit "package-lock.json";
             lit "requirements.txt"]
  /\ Forall (fun excluded => snd (OsPath.splitext (lit "main.py")) <> excluded)
            [lit ".o"; lit ".dll"; lit ".exe"; lit ".yml"].
Proof.
  intros target.
  assert (H1 : forall root name r, In (root, name, r) (walked_files target) ->
                                   ~ In OsPath.SEP name).
  { intros root name r Hin. vm_compute in Hin. destruct Hin as [E|[]].
    injection E as _ <- _. vm_compute. intuition discriminate. }
  assert (H2 : In (lit "main.py") (dict_keys (FileSet (lit "proj") target)))
    by (left; reflexivity).
  refine (conj H1 (conj H2 _)).
  exact (@read_codebase_default_exclusions (lit "proj") target (lit "main.py") H1 H2).
Defined.

End FileSetKeys.

(** ** The scan as a whole *)

Section Scan.

(** C4: a sub-directory whose name is in the ignored-directory set or starts
    with a dot is not descended into.  Whatever it contains, at whatever
    depth it sits, the walk yields the same items, and the scan returns the
    same FileSet and diagnostics, as for any other contents of it (the empty
    directory included); no walked file lies below such a directory, and
    every key of the FileSet is the relative path of a walked file. *)
Theorem read_codebase_prunes_ignored_directories
        (directory_path : str) (t t' : node) :
  differ_inside_ignored t t' ->
  os_walk dir_kept [] t = os_walk dir_kept [] t'
  /\ read_codebase directory_path (Some t) = read_codebase directory_path (Some t')
  /\ (forall root name r,
         In (root, name, r) (walked_files (Some t)) ->
         Forall (fun d => ~ dir_ignored_by_rule d) root)
  /\ (forall key,
         In key (dict_keys (FileSet directory_path (Some t))) ->
         exists root name r,
           In (root, name, r) (walked_files (Some t))
           /\ key = relative_path_of root name).
Proof.
  intros Hdiff.
  pose proof (os_walk_ignores Hdiff []) as Hwalk.
  split; [exact Hwalk|]. split; [|split].
  - destruct (differ_inside_ignored_dirs Hdiff) as (e & e' & -> & ->).
    unfold read_codebase, os_walk_top. rewrite Hwalk. reflexivity.
  - intros root name r. apply walked_files_roots_kept.
  - intros key Hkey.
    apply FileSet_keys in Hkey as ([[root name] r] & Hin & _ & ->).
    exists root, name, r. split; [exact Hin | reflexivity].
Qed.

Lemma read_codebase_prunes_ignored_directories_witness :
  differ_inside_ignored EXAMPLE_PROJECT EXAMPLE_PROJECT_BARE
  /\ read_codebase (lit "proj") (Some EXAMPLE_PROJECT)
     = read_codebase (lit "proj") (Some EXAMPLE_PROJECT_BARE)
  /\ FileSet (lit "proj") (Some EXAMPLE_PROJECT) = [(lit "main.py", lit "print(1)")].
Proof.
  assert (H : differ_inside_ignored EXAMPLE_PROJECT EXAMPLE_PROJECT_BARE).
  { apply (differ_here [(lit "main.py", File (ReadOk (lit "print(1)")))] []
                       (name := lit "node_modules")).
    left. simpl. auto 10. }
  refine (conj H (conj _ _)).
  - exact (proj1 (proj2 (read_codebase_prunes_ignored_directories (lit "proj") H))).
  - reflexivity.
Defined.

(** C5: when the root path does not denote an existing directory, the scan
    reports it on the diagnostic stream and returns the empty FileSet. *)
Theorem read_codebase_missing_directory
        (directory_path : str) (target : option node) :
  isdir target = false ->
  FileSet directory_path target = []
  /\ diagnostics (read_codebase directory_path target)
     = [MSG_NOT_FOUND directory_path; MSG_NO_FILES].
Proof.
  intros Hdir. unfold FileSet, read_codebase. rewrite Hdir.
  destruct target as [[r|entries]|]; [| discriminate Hdir |]; split; reflexivity.
Qed.

Lemma read_codebase_missing_directory_witness :
  isdir None = false
  /\ FileSet (lit "/no/such/dir") None = []
  /\ diagnostics (read_codebase (lit "/no/such/dir") None)
     = [MSG_NOT_FOUND (lit "/no/such/dir"); MSG_NO_FILES].
Proof.
  assert (H : isdir None = false) by reflexivity.
  refine (conj H _).
  exact (read_codebase_missing_directory (lit "/no/such/dir") None H).
Defined.

End Scan.

(** ** Generation Dispatcher *)

Section Dispatcher.

Lemma require_content_absent (content : option str) :
  content = None \/ content = Some [] ->
  require_content content = Raise (ValueError MSG_NONE).
Proof. intros [->| ->]; reflexivity. Qed.

(** C1, as amended: when the completion content is [None] or the empty
    string, exactly three adapters raise -- those of Gemini, OpenAI and
    Groq, with the same [ValueError] -- and the two local adapters return
    that content as it is; the default local adapter answers the empty
    string after a timeout, another request error, an HTTP error status or
    a body that is not JSON, and for a decoded JSON object without message
    or whose message object has no content. *)
Theorem backend_failure_contracts :
  (forall (b : backend) (prompt_content : str) (w : remotes)
          (content : option str),
      completion_content b prompt_content w content ->
      empty_content content ->
      (raises (run_backend b prompt_content w) = true <-> In b hosted_backends)
      /\ (In b hosted_backends ->
          run_backend b prompt_content w = Raise (ValueError MSG_NONE))
      /\ (~ In b hosted_backends ->
          run_backend b prompt_content w = Ret (value_of content)))
  /\ (NoDup hosted_backends /\ length hosted_backends = 3)
  /\ (forall (prompt_content : str) (server : str -> http_outcome),
         In (server prompt_content)
            [PostTimeout; PostRequestException; HttpErrorStatus; BodyNotJson] ->
         generate_with_ollama prompt_content server = Ret (VStr []))
  /\ (forall (prompt_content : str) (server : str -> http_outcome)
             (fields : list (str * value)),
         server prompt_content = Body (VDict fields) ->
         lookup MESSAGE fields = None
         \/ (exists inner, lookup MESSAGE fields = Some (VDict inner)
                           /\ lookup CONTENT inner = None) ->
         generate_with_ollama prompt_content server = Ret (VStr [])).
Proof.
  split; [|split; [|split]].
  - intros b prompt_content w content Hcontent Hempty.
    assert (Hrun : (In b hosted_backends
                    /\ run_backend b prompt_content w = Raise (ValueError MSG_NONE))
                   \/ (~ In b hosted_backends
                       /\ run_backend b prompt_content w = Ret (value_of content))).
    { destruct b; cbn [completion_content] in Hcontent; cbn [run_backend].
      - left. split; [simpl; auto|]. unfold generate_with_gemini.
        rewrite Hcontent. apply require_content_absent. exact Hempty.
      - left. split; [simpl; auto|]. unfold generate_with_openai.
        rewrite Hcontent. apply require_content_absent. exact Hempty.
      - left. split; [simpl; auto|]. unfold generate_with_groq.
        rewrite Hcontent. apply require_content_absent. exact Hempty.
      - right. split; [simpl; intuition discriminate|].
        destruct Hcontent as (fields & inner & Hbody & Hm & Hc).
        unfold generate_with_ollama. rewrite Hbody.
        unfold ollama_body, bind, py_in, py_getitem. rewrite Hm, Hc.
        reflexivity.
      - right. split; [simpl; intuition discriminate|].
        unfold generate_with_ollama_api. rewrite Hcontent.
        destruct content; reflexivity. }
    destruct Hrun as [[Hin ->]|[Hout ->]]; cbn [raises].
    + split; [tauto|]. split; [reflexivity | contradiction].
    + split; [split; [discriminate | contradiction]|].
      split; [contradiction | reflexivity].
  - split; [|reflexivity].
    repeat constructor; simpl; intuition discriminate.
  - intros prompt_content server H. unfold generate_with_ollama.
    cbn [In] in H. decompose [or] H; try contradiction;
      match goal with E : _ = server _ |- _ => rewrite <- E end; reflexivity.
  - intros prompt_content server fields Hbody H.
    unfold generate_with_ollama. rewrite Hbody.
    unfold ollama_body, bind, py_in, py_getitem.
    destruct H as [-> | (inner & -> & Hc)]; [reflexivity|].
    rewrite Hc. reflexivity.
Qed.

Lemma backend_failure_contracts_witness :
  (completion_content Groq (lit "p") EXAMPLE_REMOTES_NULL None
   /\ empty_content None
   /\ In Groq hosted_backends
   /\ run_backend Groq (lit "p") EXAMPLE_REMOTES_NULL = Raise (ValueError MSG_NONE))
  /\ (completion_content Ollama (lit "p") EXAMPLE_REMOTES_NULL None
      /\ ~ In Ollama hosted_backends
      /\ run_backend Ollama (lit "p") EXAMPLE_REMOTES_NULL = Ret VNone)
  /\ (completion_content OllamaApi (lit "p") EXAMPLE_REMOTES_SILENT (Some [])
      /\ empty_content (Some [])
      /\ ~ In OllamaApi hosted_backends
      /\ run_backend OllamaApi (lit "p") EXAMPLE_REMOTES_SILENT = Ret (VStr []))
  /\ generate_with_ollama (lit "p") (fun _ => BodyNotJson) = Ret (VStr [])
  /\ generate_with_ollama (lit "p") (fun _ => Body (VDict [(lit "error", VStr (lit "x"))]))
     = Ret (VStr []).
Proof.
  assert (Hnone : empty_content None) by (left; reflexivity).
  assert (Hempty : empty_content (Some [])) by (right; reflexivity).
  assert (Hgroq : completion_content Groq (lit "p") EXAMPLE_REMOTES_NULL None)
    by reflexivity.
  assert (Hollama : completion_content Ollama (lit "p") EXAMPLE_REMOTES_NULL None).
  { exists [(MESSAGE, VDict [(CONTENT, VNone)])], [(CONTENT, VNone)].
    repeat split; reflexivity. }
  assert (Hapi : completion_content OllamaApi (lit "p") EXAMPLE_REMOTES_SILENT
                                    (Some [])) by reflexivity.
  assert (Hin : In Groq hosted_backends) by (simpl; auto).
  assert (Hout : ~ In Ollama hosted_backends) by (simpl; intuition discriminate).
  assert (Hout' : ~ In OllamaApi hosted_backends)
    by (simpl; intuition discriminate).
  refine (conj (conj Hgroq (conj Hnone (conj Hin _)))
               (conj (conj Hollama (conj Hout _))
                     (conj (conj Hapi (conj Hempty (conj Hout' _)))
                           (conj _ _)))).
  - exact (proj1 (proj2 (proj1 backend_failure_contracts Groq (lit "p")
                               EXAMPLE_REMOTES_NULL None Hgroq Hnone)) Hin).
  - exact (proj2 (proj2 (proj1 backend_failure_contracts Ollama (lit "p")
                               EXAMPLE_REMOTES_NULL None Hollama Hnone)) Hout).
  - exact (proj2 (proj2 (proj1 backend_failure_contracts OllamaApi (lit "p")
                               EXAMPLE_REMOTES_SILENT (Some []) Hapi Hempty)) Hout').
  - exact (proj1 (proj2 (proj2 backend_failure_contracts)) (lit "p")
                 (fun _ => BodyNotJson)
                 (or_intror (or_intror (or_intror (or_introl eq_refl))))).
  - exact (proj2 (proj2 (proj2 backend_failure_contracts)) (lit "p")
                 (fun _ => Body (VDict [(lit "error", VStr (lit "x"))]))
                 [(lit "error", VStr (lit "x"))] eq_refl (or_introl eq_refl)).
Defined.

(** C1, as stated, fails: with a completion content that is [None], three
    distinct adapters raise, so the adapters that raise are not exactly
    two. *)
Lemma backends_raising_counterexample :
  run_backend Gemini [] EXAMPLE_REMOTES_NULL = Raise (ValueError MSG_NONE)
  /\ run_backend OpenAI [] EXAMPLE_REMOTES_NULL = Raise (ValueError MSG_NONE)
  /\ run_backend Groq [] EXAMPLE_REMOTES_NULL = Raise (ValueError MSG_NONE)
  /\ ~ (exists b1 b2 : backend,
           forall b : backend,
             raises (run_backend b [] EXAMPLE_REMOTES_NULL) = true
             <-> b = b1 \/ b = b2).
Proof.
  repeat (split; [reflexivity|]).
  intros (b1 & b2 & H).
  pose proof (proj1 (H Gemini) eq_refl) as H1.
  pose proof (proj1 (H OpenAI) eq_refl) as H2.
  pose proof (proj1 (H Groq) eq_refl) as H3.
  destruct H1 as [<-|<-], H2 as [E2|E2], H3 as [E3|E3];
    try discriminate E2; try discriminate E3;
    rewrite <- E2 in E3; discriminate E3.
Qed.

End Dispatcher.

(** ** The script body *)

Section Script.

(** X14: when every attempt to write is refused with an [OSError], the
    branch with an explicit output path reports it on the diagnostic stream
    and goes on; the branch without one lets the exception through. *)
Lemma save_write_refused (args : arguments) (w : world) (err : list str)
      (raw_readme msg : str) :
  (forall path, write_file w path raw_readme = Some (OSError msg)) ->
  output_dir_exists w = true \/ makedirs w = None ->
  save args w err raw_readme
  = match output_file args with
    | Some (c :: path) =>
        mkRun (err ++ [MSG_WRITE_ERROR (c :: path) (OSError msg)]) None Completed
    | _ => mkRun err None (Uncaught (OSError msg))
    end.
Proof.
  intros Hwrite Hdir. unfold save.
  destruct (output_file args) as [[|c path]|]; cbn [given];
    rewrite ?Hwrite; try reflexivity;
    destruct Hdir as [-> | Hm]; rewrite ?Hm, ?Hwrite; try reflexivity;
    destruct (output_dir_exists w); rewrite ?Hwrite; reflexivity.
Qed.

(** C3 at a failing run: with no output path given and the write refused,
    the exception leaves the script, which prints no message of its own on
    the diagnostic stream; with an explicit output path, in the same
    surroundings, the error is printed there and the script runs to its
    end. *)
Theorem main_write_failure_default_path :
  main EXAMPLE_ARGS_DEFAULT EXAMPLE_WORLD_READONLY
  = mkRun [] None (Uncaught EXAMPLE_DENIED)
  /\ main EXAMPLE_ARGS_EXPLICIT EXAMPLE_WORLD_READONLY
     = mkRun [MSG_WRITE_ERROR (lit "out/README.md") EXAMPLE_DENIED] None Completed.
Proof. split; reflexivity. Qed.

End Script.

(** ** Runs on small inputs *)

Section Examples.

Example splitlines_mixed_terminators :
  splitlines (lit "a" ++ [CR; LF] ++ lit "b" ++ [CR] ++ [CR; LF; LF] ++ lit "c")
  = [lit "a" ++ [CR; LF]; lit "b" ++ [CR]; [CR; LF]; [LF]; lit "c"].
Proof. reflexivity. Qed.

Example strip_lower_fence :
  lower (strip (lit "  ```MarkDown " ++ nl)) = FENCE_MARKDOWN.
Proof. reflexivity. Qed.

(** An upper-case label and a terminated closing fence are accepted. *)
Example clean_ai_output_upper_case :
  clean_ai_output (lit "```MARKDOWN" ++ nl ++ lit "x" ++ nl ++ lit "```" ++ nl)
  = lit "x" ++ nl.
Proof. reflexivity. Qed.

(** Only one pair of fences is removed in one call. *)
Example clean_ai_output_nested :
  clean_ai_output (lit "```" ++ nl ++ lit "```" ++ nl ++ lit "x" ++ nl
                       ++ lit "```" ++ nl ++ lit "```")
  = lit "```" ++ nl ++ lit "x" ++ nl ++ lit "```" ++ nl.
Proof. reflexivity. Qed.

(** An opening fence with another label is left alone. *)
Example clean_ai_output_other_label :
  clean_ai_output (lit "```python" ++ nl ++ lit "x" ++ nl ++ lit "```")
  = lit "```python" ++ nl ++ lit "x" ++ nl ++ lit "```".
Proof. reflexivity. Qed.

Example splitext_samples :
  OsPath.splitext (lit "archive.tar.yml") = (lit "archive.tar", lit ".yml")
  /\ OsPath.splitext (lit ".bashrc") = (lit ".bashrc", [])
  /\ OsPath.splitext (lit "Makefile") = (lit "Makefile", [])
  /\ OsPath.splitext (lit "a.b/c") = (lit "a.b/c", []).
Proof. repeat split; reflexivity. Qed.

Example join_samples :
  OsPath.join [] (lit "main.py") = lit "main.py"
  /\ OsPath.join (lit "src") (lit "util.py") = lit "src/util.py"
  /\ relative_path_of [lit "src"; lit "core"] (lit "a.py") = lit "src/core/a.py".
Proof. repeat split; reflexivity. Qed.

(** The walk of the sample project stops at [node_modules]. *)
Example os_walk_sample :
  os_walk dir_kept [] EXAMPLE_PROJECT
  = [([], [], [(lit "main.py", ReadOk (lit "print(1)"))])].
Proof. reflexivity. Qed.

Example read_codebase_empty_directory :
  read_codebase (lit "proj") (Some (Dir [])) = mkScan [] [MSG_NO_FILES].
Proof. reflexivity. Qed.

(** The first configured credential wins; without any, the local backend. *)
Example select_backend_precedence :
  select_backend (Some (lit "g")) (Some (lit "o")) None = Gemini
  /\ select_backend None (Some (lit "o")) (Some (lit "q")) = OpenAI
  /\ select_backend (Some []) None (Some (lit "q")) = Groq
  /\ select_backend None None None = Ollama.
Proof. repeat split; reflexivity. Qed.

(** A decoded body that is not an object leaves the local adapter with a
    [TypeError]. *)
Example generate_with_ollama_number_body :
  generate_with_ollama (lit "p") (fun _ => Body (VNum true)) = Raise TypeError.
Proof. reflexivity. Qed.

(** A successful run with the default output path. *)
Example main_success :
  main EXAMPLE_ARGS_DEFAULT
       (mkWorld (Some EXAMPLE_PROJECT) EXAMPLE_REMOTES (fun _ _ => None)
                false None (lit "1b4e28ba"))
  = mkRun [] (Some (lit "/tmp/generated_readme/1b4e28ba.md", lit "# Title"))
          Completed.
Proof. reflexivity. Qed.

(** Nothing is generated or written for an empty FileSet. *)
Example main_nothing_to_do :
  main EXAMPLE_ARGS_DEFAULT
       (mkWorld None EXAMPLE_REMOTES (fun _ _ => None) false None (lit "1b4e28ba"))
  = mkRun [MSG_NOT_FOUND (lit "proj"); MSG_NO_FILES] None Completed.
Proof. reflexivity. Qed.

End Examples.

(** * Further properties *)

(** ** The dictionary built by [read_codebase] *)

Section FileSetStructure.


Lemma dict_set_fresh (d : dict) (k v : str) :
  ~ In k (dict_keys d) -> dict_set d k v = d ++ [(k, v)].
Proof.
  induction d as [|[k' v'] d IH]; simpl; intros Hout; [reflexivity|].
  destruct (eqb k' k) eqn:E.
  - apply eqb_eq in E. exfalso. apply Hout. left. assumption.
  - rewrite IH; [reflexivity|]. intros Hin. apply Hout. right. assumption.
Qed.


Lemma set_entries_fresh (entries : list (str * str)) (d : dict) :
  NoDup (dict_keys d ++ map fst entries) -> set_entries d entries = d ++ entries.
Proof.
  revert d. induction entries as [|[k v] entries IH]; intros d Hnd.
  - simpl. rewrite app_nil_r. reflexivity.
  - cbn [set_entries fold_left fst snd map] in *.
    assert (Hout : ~ In k (dict_keys d)).
    { apply NoDup_remove_2 in Hnd. intros Hin. apply Hnd.
      apply in_or_app. left. assumption. }
    rewrite (@dict_set_fresh d k v Hout).
    change (fold_left _ entries (d ++ [(k, v)]))
      with (set_entries (d ++ [(k, v)]) entries).
    rewrite IH.
    + rewrite <- app_assoc. reflexivity.
    + unfold dict_keys in *. rewrite map_app. cbn [map fst].
      rewrite <- app_assoc. exact Hnd.
Qed.

Lemma set_entries_app (a b : list (str * str)) (d : dict) :
  set_entries d (a ++ b) = set_entries (set_entries d a) b.
Proof. apply fold_left_app. Qed.

(** A scan changes the dictionary as the assignments of the stored entries
    do, and leaves the diagnostics alone. *)
Lemma visit_file_scan (root : list str) (filename : str) (r : read_result)
      (st : scan) :
  visit_file (relative_root_of root) st (filename, r)
  = mkScan (set_entries (code_contents st) (stored_entry (root, filename, r)))
           (diagnostics st).
Proof.
  unfold visit_file, stored_entry, relative_path_of.
  destruct r as [content|e]; destruct (file_ignored filename); destruct st;
    reflexivity.
Qed.

Lemma visit_files_scan (root : list str) (files : list (str * read_result))
      (st : scan) :
  fold_left (visit_file (relative_root_of root)) files st
  = mkScan (set_entries (code_contents st)
                        (flat_map stored_entry
                                  (map (fun f : str * read_result =>
                                          (root, fst f, snd f)) files)))
           (diagnostics st).
Proof.
  revert st. induction files as [|[filename r] files IH]; intros st.
  - destruct st; reflexivity.
  - cbn [fold_left map flat_map fst snd].
    rewrite IH, set_entries_app, visit_file_scan. reflexivity.
Qed.

Lemma visit_dirs_scan (items : list walk_item) (st : scan) :
  fold_left visit_dir items st
  = mkScan (set_entries (code_contents st)
                        (flat_map stored_entry (flat_map files_of_item items)))
           (diagnostics st).
Proof.
  revert st. induction items as [|[[root dirs] files] items IH]; intros st.
  - destruct st; reflexivity.
  - cbn [fold_left flat_map]. rewrite IH.
    change (visit_dir st (root, dirs, files))
      with (fold_left (visit_file (relative_root_of root)) files st).
    rewrite visit_files_scan. cbn [code_contents diagnostics].
    rewrite flat_map_app, set_entries_app. reflexivity.
Qed.

Lemma read_codebase_scan (directory_path : str) (target : option node) :
  FileSet directory_path target = set_entries [] (stored_entries target)
  /\ diagnostics (read_codebase directory_path target)
     = (if isdir target then [] else [MSG_NOT_FOUND directory_path])
         ++ match set_entries [] (stored_entries target) with
            | [] => [MSG_NO_FILES]
            | _ => []
            end.
Proof.
  unfold FileSet, read_codebase, stored_entries, walked_files.
  rewrite visit_dirs_scan.
  assert (E : forall b : bool,
             code_contents (if b then print_err (MSG_NOT_FOUND directory_path)
                                                (mkScan [] [])
                            else mkScan [] []) = [])
    by (intros []; reflexivity).
  rewrite E. cbn [code_contents].
  destruct (set_entries [] _) eqn:Es; cbn [print_err code_contents diagnostics];
    rewrite ?Es; (split; [reflexivity|]);
    destruct (isdir target); reflexivity.
Qed.


(** X2: when the stored files have distinct relative paths, the FileSet
    lists them in the order of the walk -- the files of a directory in
    listing order, before those of its sub-directories -- each with the
    text that was read. *)
Theorem FileSet_in_walk_order (directory_path : str) (target : option node) :
  NoDup (map fst (stored_entries target)) ->
  FileSet directory_path target = stored_entries target.
Proof.
  intros Hnd. rewrite (proj1 (read_codebase_scan directory_path target)).
  apply (set_entries_fresh (stored_entries target) []). exact Hnd.
Qed.

Lemma FileSet_in_walk_order_witness :
  NoDup (map fst (stored_entries (Some EXAMPLE_NESTED)))
  /\ stored_entries (Some EXAMPLE_NESTED)
     = [(lit "b.py", lit "b"); (lit "a.py", lit "outer");
        (lit "src/a.py", lit "inner")]
  /\ FileSet (lit "proj") (Some EXAMPLE_NESTED)
     = stored_entries (Some EXAMPLE_NESTED).
Proof.
  assert (H : NoDup (map fst (stored_entries (Some EXAMPLE_NESTED)))).
  { vm_compute. repeat constructor; simpl; intuition discriminate. }
  refine (conj H (conj eq_refl _)).
  exact (FileSet_in_walk_order (lit "proj") (Some EXAMPLE_NESTED) H).
Defined.

(** X3: of its two messages for the diagnostic stream, the scan prints the
    directory-not-found error exactly when the path is not a directory, and
    the no-files warning exactly when it stores no file. *)
Theorem read_codebase_diagnostics (directory_path : str) (target : option node) :
  (In (MSG_NOT_FOUND directory_path)
      (diagnostics (read_codebase directory_path target))
   <-> isdir target = false)
  /\ (In MSG_NO_FILES (diagnostics (read_codebase directory_path target))
      <-> FileSet directory_path target = []).
Proof.
  assert (Hne : MSG_NOT_FOUND directory_path <> MSG_NO_FILES)
    by (unfold MSG_NOT_FOUND, MSG_NO_FILES; simpl; discriminate).
  destruct (read_codebase_scan directory_path target) as [Hset Hdiag].
  rewrite Hdiag, Hset.
  assert (Hdir : isdir target = false -> stored_entries target = []).
  { destruct target as [[r|entries]|]; [reflexivity | discriminate | reflexivity]. }
  destruct (isdir target) eqn:Ed.
  - destruct (set_entries [] (stored_entries target)); simpl; split; split;
      try discriminate; try tauto; intuition congruence.
  - rewrite (Hdir eq_refl). simpl. split; split; auto.
Qed.

Lemma startswith_dot_app (a b : str) :
  a <> [] -> startswith (a ++ b) DOT = startswith a DOT.
Proof. destruct a as [|c a]; [congruence | reflexivity]. Qed.

Lemma relative_root_no_dot (root : list str) :
  Forall (fun d => dir_kept d = true) root ->
  startswith (relative_root_of root) DOT = false.
Proof.
  intros Hkept. unfold relative_root_of.
  destruct root as [|d rest]; [reflexivity|].
  destruct (eqb (OsPath.relpath (d :: rest)) DOT); [reflexivity|].
  inversion_clear Hkept as [|? ? Hd _].
  unfold dir_kept in Hd. apply andb_true_iff in Hd as [_ Hd].
  apply negb_true_iff in Hd.
  cbn [OsPath.relpath PyStr.join]. destruct rest as [|d' rest]; [exact Hd|].
  destruct d as [|c d]; [reflexivity | exact Hd].
Qed.

Lemma join_no_dot (a name : str) :
  startswith a DOT = false -> startswith name DOT = false ->
  startswith (OsPath.join a name) DOT = false.
Proof.
  intros Ha Hn. unfold OsPath.join.
  destruct (startswith name [OsPath.SEP]); [exact Hn|].
  destruct a as [|c a]; [exact Hn|].
  destruct (OsPath.endswith_char (c :: a) OsPath.SEP); exact Ha.
Qed.

(** X4: no key of the FileSet starts with a dot: keys never take the form
    "./name", and neither a hidden file nor anything below a hidden
    top-level directory appears. *)
Theorem FileSet_keys_no_leading_dot (directory_path : str) (target : option node) :
  Forall (fun key => startswith key DOT = false)
         (dict_keys (FileSet directory_path target)).
Proof.
  apply Forall_forall. intros key Hkey.
  apply FileSet_keys in Hkey as ([[root name] r] & Hin & [Hi _] & ->).
  cbn [fst snd] in Hi. unfold path_of_walked, relative_path_of. cbn [fst snd].
  apply join_no_dot.
  - apply relative_root_no_dot.
    unfold walked_files in Hin.
    apply in_flat_map in Hin as ([[root' dirs] files] & Hitem & Hin).
    destruct target as [n|]; [|contradiction].
    apply (os_walk_roots_kept n (top := [])) in Hitem; [|constructor].
    cbn [files_of_item] in Hin. apply in_map_iff in Hin as (f & E & _).
    injection E as <- _ _. exact Hitem.
  - unfold file_ignored in Hi.
    destruct (mem name IGNORE_FILES); [discriminate|].
    destruct (startswith name DOT); [discriminate | reflexivity].
Qed.

Lemma stored_entries_skip (before after : listing) (name : str) (r : read_result) :
  stored_entry ([], name, r) = [] ->
  stored_entries (Some (Dir (before ++ (name, File r) :: after)))
  = stored_entries (Some (Dir (before ++ after))).
Proof.
  intros Hskip. unfold stored_entries, walked_files, os_walk_top.
  cbn [os_walk flat_map files_of_item].
  rewrite !file_entries_app, !flat_map_app. cbn [file_entries flat_map].
  rewrite !map_app, !flat_map_app. cbn [map flat_map fst snd].
  rewrite Hskip. destruct (dir_kept name); reflexivity.
Qed.

Lemma read_codebase_by_entries (directory_path : str) (t t' : option node) :
  isdir t = isdir t' -> stored_entries t = stored_entries t' ->
  read_codebase directory_path t = read_codebase directory_path t'.
Proof.
  intros Hdir Hentries.
  destruct (read_codebase_scan directory_path t) as [Hs Hd].
  destruct (read_codebase_scan directory_path t') as [Hs' Hd'].
  unfold FileSet in Hs, Hs'.
  destruct (read_codebase directory_path t) as [c d].
  destruct (read_codebase directory_path t') as [c' d'].
  cbn [code_contents diagnostics] in *.
  rewrite Hs, Hs', Hd, Hd', Hdir, Hentries. reflexivity.
Qed.

(** X17: a file of the scanned directory that the filter ignores, or that
    cannot be read, leaves the result of the scan -- FileSet and
    diagnostics -- as it would be without that file. *)
Theorem read_codebase_skips_file
        (directory_path : str) (before after : listing)
        (name : str) (r : read_result) :
  file_ignored name = true \/ (exists e, r = ReadError e) ->
  read_codebase directory_path (Some (Dir (before ++ (name, File r) :: after)))
  = read_codebase directory_path (Some (Dir (before ++ after))).
Proof.
  intros Hskip. apply read_codebase_by_entries; [reflexivity|].
  apply stored_entries_skip. unfold stored_entry.
  destruct Hskip as [Hi|[e ->]]; [|reflexivity].
  rewrite Hi. destruct r; reflexivity.
Qed.

Lemma read_codebase_skips_file_witness :
  (file_ignored (lit "main.py") = true
   \/ exists e, ReadError (lit "Permission denied") = ReadError e)
  /\ read_codebase (lit "proj") (Some EXAMPLE_UNREADABLE)
     = read_codebase (lit "proj") (Some (Dir [])).
Proof.
  assert (H : file_ignored (lit "main.py") = true
              \/ exists e, ReadError (lit "Permission denied") = ReadError e)
    by (right; eexists; reflexivity).
  refine (conj H _).
  exact (@read_codebase_skips_file (lit "proj") [] [] (lit "main.py")
           (ReadError (lit "Permission denied")) H).
Defined.

End FileSetStructure.

(** ** The file rule, the prompt document and the sanitizer *)

Section FurtherPipeline.

Lemma skipn_length_app (A : Type) (a b : list A) :
  skipn (length a + 0) (a ++ b) = b.
Proof.
  rewrite Nat.add_0_r. induction a as [|x a IH]; [reflexivity | exact IH].
Qed.

(** X5: a file whose name ends with one of the ignored extensions is
    filtered out whatever precedes the extension. *)
Theorem file_ignored_by_extension (stem ext : str) :
  In ext IGNORE_EXTENSIONS ->
  ~ In OsPath.SEP stem ->
  file_ignored (stem ++ ext) = true.
Proof.
  intros Hext Hsep.
  assert (Hdot : OsPath.rfind OsPath.EXTSEP ext = Some 0 /\ ~ In OsPath.SEP ext).
  { simpl in Hext. decompose [or] Hext; try contradiction; subst ext;
      (split; [reflexivity | vm_compute; intuition discriminate]). }
  destruct Hdot as [Hdot Hsep'].
  apply file_ignored_rule.
  - intros H. apply in_app_or in H as [H|H]; contradiction.
  - right; right. unfold extension_from_last_dot.
    rewrite rfind_app, Hdot, skipn_length_app. exact Hext.
Qed.

Lemma file_ignored_by_extension_witness :
  In (lit ".dll") IGNORE_EXTENSIONS
  /\ ~ In OsPath.SEP (lit "vendor.v2")
  /\ file_ignored (lit "vendor.v2" ++ lit ".dll") = true.
Proof.
  assert (H1 : In (lit ".dll") IGNORE_EXTENSIONS) by (simpl; auto).
  assert (H2 : ~ In OsPath.SEP (lit "vendor.v2"))
    by (vm_compute; intuition discriminate).
  refine (conj H1 (conj H2 _)).
  exact (@file_ignored_by_extension (lit "vendor.v2") (lit ".dll") H1 H2).
Defined.

(** X6: the prompt document is the no-content sentence for the empty
    FileSet only, so the sentence tells the two cases apart. *)
Theorem format_codebase_for_prompt_sentinel (code_contents : dict) :
  format_codebase_for_prompt code_contents = NO_CONTENT <-> code_contents = [].
Proof.
  split; [|intros ->; reflexivity].
  destruct code_contents as [|entry rest]; [reflexivity|].
  unfold format_codebase_for_prompt. rewrite format_loop.
  intros H. discriminate H.
Qed.

(** X7: file content is inserted as it is, with nothing escaped: one file
    whose text holds a closing fence, a blank line, a marker line and an
    opening fence gives the same prompt document as two files. *)
Theorem format_codebase_for_prompt_no_escaping (p1 c1 p2 c2 : str) :
  format_codebase_for_prompt
    [(p1, c1 ++ nl ++ FENCE ++ nl ++ nl ++ marker_line p2 ++ FENCE ++ nl ++ c2)]
  = format_codebase_for_prompt [(p1, c1); (p2, c2)].
Proof.
  unfold format_codebase_for_prompt. rewrite !format_loop.
  cbn [map concat]. unfold prompt_section, fenced_block, blank_line.
  cbn [fst snd]. rewrite !app_nil_r.
  repeat rewrite <- app_assoc. reflexivity.
Qed.

(** X8: the sanitizer only removes text at the two ends: its result occurs
    in the input as one block, and is never longer than the input. *)
Theorem clean_ai_output_is_infix (s : str) :
  (exists before after, s = before ++ clean_ai_output s ++ after)
  /\ length (clean_ai_output s) <= length s.
Proof.
  assert (H : exists before after, s = before ++ clean_ai_output s ++ after).
  { destruct (clean_ai_output_two_shapes s) as [E|(first & middle & final & Hl & E)].
    - exists [], []. rewrite E, app_nil_r. reflexivity.
    - exists first, final. rewrite E.
      rewrite <- (concat_splitlines s) at 1. rewrite Hl.
      rewrite concat_cons, concat_app. simpl. rewrite app_nil_r. reflexivity. }
  split; [exact H|].
  destruct H as (before & after & E).
  rewrite E at 2. rewrite !length_app. lia.
Qed.

Lemma fence_line_not_empty (line : str) : fence_line line -> line <> [].
Proof.
  intros [H|H] ->; unfold caseless_eq in H; vm_compute in H; discriminate H.
Qed.

(** X9: the sanitizer changes its input exactly when the text has at least
    two lines, the first one a fence line and the last one, stripped, a bare
    fence up to case; fences anywhere else in the text do not matter. *)
Theorem clean_ai_output_changes_iff (s : str) :
  clean_ai_output s <> s
  <-> 2 <= length (splitlines s)
      /\ fence_line (first_item (splitlines s))
      /\ caseless_eq (strip (last_item (splitlines s))) FENCE.
Proof.
  rewrite clean_ai_output_cases.
  destruct (strips (splitlines s)) eqn:E.
  - apply strips_true in E as (Hfirst & Hlast & Hlen).
    split; [auto|]. intros _ Heq.
    pose proof (ends_of_list [] (splitlines s) Hlen) as Hl.
    apply (f_equal (@length char)) in Heq.
    rewrite <- (concat_splitlines s) in Heq at 2.
    rewrite Hl in Heq at 2.
    rewrite concat_cons, concat_app, !length_app in Heq.
    apply fence_line_not_empty in Hfirst. unfold first_item in Hfirst.
    destruct (hd [] (splitlines s)); [congruence|]. cbn [length] in Heq.
    unfold str, char in Heq. lia.
  - split; [congruence|]. intros (Hlen & Hfirst & Hlast).
    assert (strips (splitlines s) = true) by (apply strips_true; auto).
    congruence.
Qed.

End FurtherPipeline.

(** ** Adapters and the script body *)

Section FurtherScript.

Lemma read_codebase_silent (directory_path : str) (target : option node) :
  FileSet directory_path target <> [] ->
  diagnostics (read_codebase directory_path target) = [].
Proof.
  destruct (read_codebase_scan directory_path target) as [Hset Hdiag].
  rewrite Hdiag, Hset.
  destruct (set_entries [] (stored_entries target)) eqn:E; [congruence|].
  intros _. destruct target as [[r|entries]|]; try discriminate E. reflexivity.
Qed.

(** The script body once the scan has stored something. *)
Lemma main_after_scan (args : arguments) (w : world) :
  FileSet (directory args) (target w) <> [] ->
  main args w
  = match handle_generation (prompt_of args w)
                            (arg_gemini_api_key args) (arg_openai_api_key args)
                            (arg_groq_api_key args) (remote w) with
    | Raise e => mkRun [] None (Uncaught e)
    | Ret generated_readme =>
        match clean_returned generated_readme with
        | Raise e => mkRun [] None (Uncaught e)
        | Ret raw_readme => save args w [] raw_readme
        end
    end.
Proof.
  intros Hne. unfold main, prompt_of.
  rewrite (read_codebase_silent _ _ Hne). unfold FileSet in *.
  destruct (code_contents (read_codebase (directory args) (target w)));
    [congruence | reflexivity].
Qed.

(** X10: when an adapter reached through a credential returns, it returns a
    non-empty string, so the sanitizer always applies to its result. *)
Theorem hosted_backends_return_text
        (b : backend) (prompt_content : str) (w : remotes) (v : value) :
  In b hosted_backends ->
  run_backend b prompt_content w = Ret v ->
  exists text, v = VStr text /\ text <> []
               /\ clean_returned v = Ret (clean_ai_output text).
Proof.
  intros Hb Hrun.
  assert (Hreq : exists content, require_content content = Ret v).
  { cbn [hosted_backends In] in Hb.
    destruct Hb as [<-|[<-|[<-|[]]]]; cbn [run_backend] in Hrun;
      unfold generate_with_gemini, generate_with_openai, generate_with_groq in Hrun;
      match type of Hrun with
      | match ?o with _ => _ end = _ => destruct o; [discriminate | eauto]
      end. }
  destruct Hreq as ([[|c text]|] & Hreq); try discriminate Hreq.
  injection Hreq as <-. exists (c :: text).
  split; [reflexivity|]. split; [discriminate | reflexivity].
Qed.

Lemma hosted_backends_return_text_witness :
  In Gemini hosted_backends
  /\ run_backend Gemini (lit "p") EXAMPLE_REMOTES = Ret (VStr (lit "# Title"))
  /\ exists text, VStr (lit "# Title") = VStr text /\ text <> []
                  /\ clean_returned (VStr (lit "# Title"))
                     = Ret (clean_ai_output text).
Proof.
  assert (H1 : In Gemini hosted_backends) by (left; reflexivity).
  assert (H2 : run_backend Gemini (lit "p") EXAMPLE_REMOTES
               = Ret (VStr (lit "# Title"))) by reflexivity.
  refine (conj H1 (conj H2 _)).
  exact (@hosted_backends_return_text Gemini (lit "p") EXAMPLE_REMOTES _ H1 H2).
Defined.

(** X11: an artifact is written only at the end of a complete pipeline: the
    scan stored something, the chosen backend returned, the text written is
    the sanitized return value, the write itself succeeded, and the path is
    the explicit one or the generated name in the fixed directory. *)
Theorem main_written_provenance (args : arguments) (w : world)
        (path text : str) :
  written (main args w) = Some (path, text) ->
  ending (main args w) = Completed
  /\ FileSet (directory args) (target w) <> []
  /\ (exists generated,
         handle_generation (prompt_of args w)
                           (arg_gemini_api_key args) (arg_openai_api_key args)
                           (arg_groq_api_key args) (remote w) = Ret generated
         /\ clean_returned generated = Ret text)
  /\ write_file w path text = None
  /\ (output_file args = Some path
      \/ (given (output_file args) = false
          /\ path = OsPath.join OUTPUT_DIR (uuid4 w ++ lit ".md"))).
Proof.
  destruct (FileSet (directory args) (target w)) as [|entry rest] eqn:Hset.
  - unfold main. unfold FileSet in Hset. rewrite Hset. discriminate.
  - assert (Hne : FileSet (directory args) (target w) <> []) by congruence.
    rewrite (main_after_scan args w Hne).
    destruct (handle_generation _ _ _ _ _) as [generated|e]; [|discriminate].
    destruct (clean_returned generated) as [raw|e] eqn:Hclean; [|discriminate].
    unfold save.
    destruct (given (output_file args)) eqn:Hgiven.
    + destruct (output_file args) as [explicit|]; [|discriminate Hgiven].
      destruct (write_file w explicit raw) as [e|] eqn:Hw.
      * destruct (is_IOError e); discriminate.
      * cbn [written ending]. intros H; injection H as <- <-.
        repeat split; eauto; discriminate.
    + destruct (if output_dir_exists w then None else makedirs w);
        [discriminate|].
      destruct (write_file w _ raw) as [e|] eqn:Hw; [discriminate|].
      cbn [written ending]. intros H; injection H as <- <-.
      repeat split; eauto; discriminate.
Qed.

Lemma main_written_provenance_witness :
  written (main EXAMPLE_ARGS_DEFAULT EXAMPLE_WORLD_WRITABLE)
  = Some (lit "/tmp/generated_readme/1b4e28ba.md", lit "# Title")
  /\ ending (main EXAMPLE_ARGS_DEFAULT EXAMPLE_WORLD_WRITABLE) = Completed
  /\ FileSet (lit "proj") (Some EXAMPLE_PROJECT) <> [].
Proof.
  assert (H : written (main EXAMPLE_ARGS_DEFAULT EXAMPLE_WORLD_WRITABLE)
              = Some (lit "/tmp/generated_readme/1b4e28ba.md", lit "# Title"))
    by reflexivity.
  pose proof (main_written_provenance EXAMPLE_ARGS_DEFAULT EXAMPLE_WORLD_WRITABLE H)
    as (H1 & H2 & _).
  exact (conj H (conj H1 H2)).
Defined.

Lemma require_content_missing (o : client_outcome) :
  content_missing o ->
  match o with
  | ClientRaises e => Raise e
  | ClientAnswers content => require_content content
  end = Raise (ValueError MSG_NONE).
Proof. intros [-> | ->]; reflexivity. Qed.

(** X12: with a credential given, a completion without text from the
    backend that the precedence selects ends the run with the uncaught
    [ValueError], and nothing is written. *)
Theorem main_missing_completion_is_fatal (args : arguments) (w : world) :
  FileSet (directory args) (target w) <> [] ->
  (given (arg_gemini_api_key args) = true
   /\ content_missing (gemini_call (remote w) (prompt_of args w)))
  \/ (given (arg_gemini_api_key args) = false
      /\ given (arg_openai_api_key args) = true
      /\ content_missing (openai_call (remote w) (prompt_of args w)))
  \/ (given (arg_gemini_api_key args) = false
      /\ given (arg_openai_api_key args) = false
      /\ given (arg_groq_api_key args) = true
      /\ content_missing (groq_call (remote w) (prompt_of args w))) ->
  ending (main args w) = Uncaught (ValueError MSG_NONE)
  /\ written (main args w) = None.
Proof.
  intros Hne Hcase. rewrite (main_after_scan args w Hne).
  unfold handle_generation, select_backend.
  destruct Hcase as [[Hg Hm]|[(Hg & Ho & Hm)|(Hg & Ho & Hq & Hm)]];
    rewrite ?Hg, ?Ho, ?Hq; cbn [run_backend];
    unfold generate_with_gemini, generate_with_openai, generate_with_groq;
    rewrite (require_content_missing Hm); split; reflexivity.
Qed.

Lemma main_missing_completion_is_fatal_witness :
  FileSet (directory EXAMPLE_ARGS_OPENAI) (target EXAMPLE_WORLD_SILENT) <> []
  /\ given (arg_gemini_api_key EXAMPLE_ARGS_OPENAI) = false
  /\ given (arg_openai_api_key EXAMPLE_ARGS_OPENAI) = true
  /\ content_missing (openai_call (remote EXAMPLE_WORLD_SILENT)
                                  (prompt_of EXAMPLE_ARGS_OPENAI EXAMPLE_WORLD_SILENT))
  /\ ending (main EXAMPLE_ARGS_OPENAI EXAMPLE_WORLD_SILENT)
     = Uncaught (ValueError MSG_NONE)
  /\ written (main EXAMPLE_ARGS_OPENAI EXAMPLE_WORLD_SILENT) = None.
Proof.
  assert (H0 : FileSet (directory EXAMPLE_ARGS_OPENAI) (target EXAMPLE_WORLD_SILENT)
               <> []) by discriminate.
  assert (H1 : given (arg_gemini_api_key EXAMPLE_ARGS_OPENAI) = false)
    by reflexivity.
  assert (H2 : given (arg_openai_api_key EXAMPLE_ARGS_OPENAI) = true)
    by reflexivity.
  assert (H3 : content_missing
                 (openai_call (remote EXAMPLE_WORLD_SILENT)
                              (prompt_of EXAMPLE_ARGS_OPENAI EXAMPLE_WORLD_SILENT)))
    by (right; reflexivity).
  refine (conj H0 (conj H1 (conj H2 (conj H3 _)))).
  exact (@main_missing_completion_is_fatal EXAMPLE_ARGS_OPENAI EXAMPLE_WORLD_SILENT
           H0 (or_intror (or_introl (conj H1 (conj H2 H3))))).
Defined.

(** X13: without any credential, a failure of the exchange with the local
    server is not an error for the script: the empty text is written to the
    explicit output path and the run completes. *)
Theorem main_local_failure_writes_empty (args : arguments) (w : world)
        (path : str) :
  FileSet (directory args) (target w) <> [] ->
  given (arg_gemini_api_key args) = false ->
  given (arg_openai_api_key args) = false ->
  given (arg_groq_api_key args) = false ->
  transport_failure (ollama_http (remote w) (prompt_of args w)) ->
  output_file args = Some path -> path <> [] ->
  write_file w path [] = None ->
  main args w = mkRun [] (Some (path, [])) Completed.
Proof.
  intros Hne Hg Ho Hq Hfail Hout Hpath Hwrite.
  rewrite (main_after_scan args w Hne).
  unfold handle_generation, select_backend. rewrite Hg, Ho, Hq.
  cbn [run_backend]. unfold generate_with_ollama.
  replace (match ollama_http (remote w) (prompt_of args w) with
           | Body res => ollama_body res
           | _ => Ret (VStr [])
           end) with (@Ret value (VStr []))
    by (destruct Hfail as [-> |[-> |[-> | ->]]]; reflexivity).
  cbn [clean_returned truthy negb]. unfold save. rewrite Hout.
  destruct path as [|c path]; [congruence|].
  cbn [given]. rewrite Hwrite. reflexivity.
Qed.

Lemma main_local_failure_writes_empty_witness :
  FileSet (directory EXAMPLE_ARGS_LOCAL) (target EXAMPLE_WORLD_OFFLINE) <> []
  /\ transport_failure (ollama_http (remote EXAMPLE_WORLD_OFFLINE)
                                    (prompt_of EXAMPLE_ARGS_LOCAL EXAMPLE_WORLD_OFFLINE))
  /\ main EXAMPLE_ARGS_LOCAL EXAMPLE_WORLD_OFFLINE
     = mkRun [] (Some (lit "README.md", [])) Completed.
Proof.
  assert (H0 : FileSet (directory EXAMPLE_ARGS_LOCAL) (target EXAMPLE_WORLD_OFFLINE)
               <> []) by discriminate.
  assert (H1 : transport_failure
                 (ollama_http (remote EXAMPLE_WORLD_OFFLINE)
                              (prompt_of EXAMPLE_ARGS_LOCAL EXAMPLE_WORLD_OFFLINE)))
    by (left; reflexivity).
  assert (H2 : lit "README.md" <> []) by discriminate.
  refine (conj H0 (conj H1 _)).
  exact (@main_local_failure_writes_empty EXAMPLE_ARGS_LOCAL EXAMPLE_WORLD_OFFLINE
           (lit "README.md") H0 eq_refl eq_refl eq_refl H1 eq_refl H2 eq_refl).
Defined.

(** X15: without any credential, a decoded body that is none, a boolean or a
    number makes the membership test raise a [TypeError], which no clause of
    the local adapter catches: the run ends with it and writes nothing. *)
Theorem main_local_body_not_a_container (args : arguments) (w : world)
        (res : value) :
  FileSet (directory args) (target w) <> [] ->
  given (arg_gemini_api_key args) = false ->
  given (arg_openai_api_key args) = false ->
  given (arg_groq_api_key args) = false ->
  ollama_http (remote w) (prompt_of args w) = Body res ->
  not_a_container res ->
  main args w = mkRun [] None (Uncaught TypeError).
Proof.
  intros Hne Hg Ho Hq Hbody Hres.
  rewrite (main_after_scan args w Hne).
  unfold handle_generation, select_backend. rewrite Hg, Ho, Hq.
  cbn [run_backend]. unfold generate_with_ollama. rewrite Hbody.
  destruct res; try contradiction; reflexivity.
Qed.

Lemma main_local_body_not_a_container_witness :
  FileSet (directory EXAMPLE_ARGS_LOCAL) (target EXAMPLE_WORLD_SILENT) <> []
  /\ ollama_http (remote EXAMPLE_WORLD_SILENT)
                 (prompt_of EXAMPLE_ARGS_LOCAL EXAMPLE_WORLD_SILENT) = Body VNone
  /\ not_a_container VNone
  /\ main EXAMPLE_ARGS_LOCAL EXAMPLE_WORLD_SILENT
     = mkRun [] None (Uncaught TypeError).
Proof.
  assert (H0 : FileSet (directory EXAMPLE_ARGS_LOCAL) (target EXAMPLE_WORLD_SILENT)
               <> []) by discriminate.
  refine (conj H0 (conj eq_refl (conj I _))).
  exact (@main_local_body_not_a_container EXAMPLE_ARGS_LOCAL EXAMPLE_WORLD_SILENT
           VNone H0 eq_refl eq_refl eq_refl eq_refl I).
Defined.

(** X16: when the decoded body is an object whose message is an object with
    a content entry, the local adapter returns that entry as it is, without
    the emptiness test of the other adapters: an empty or a null content is
    returned, and the sanitizer turns either into the empty text. *)
Theorem generate_with_ollama_returns_content
        (formatted_prompt_content : str) (server : str -> http_outcome)
        (fields inner : list (str * value)) (content : value) :
  server formatted_prompt_content = Body (VDict fields) ->
  lookup MESSAGE fields = Some (VDict inner) ->
  lookup CONTENT inner = Some content ->
  generate_with_ollama formatted_prompt_content server = Ret content
  /\ (truthy content = false -> clean_returned content = Ret []).
Proof.
  intros Hbody Hm Hc. split.
  - unfold generate_with_ollama. rewrite Hbody.
    unfold ollama_body, bind, py_in, py_getitem. rewrite Hm, Hc.
    reflexivity.
  - intros Hfalsy. unfold clean_returned. rewrite Hfalsy. reflexivity.
Qed.

Lemma generate_with_ollama_returns_content_witness :
  let inner := [(lit "role", VStr (lit "assistant")); (CONTENT, VNone)] in
  let fields := [(lit "model", VStr (lit "llama3.2:3b")); (MESSAGE, VDict inner)] in
  lookup MESSAGE fields = Some (VDict inner)
  /\ lookup CONTENT inner = Some VNone
  /\ generate_with_ollama (lit "p") (fun _ => Body (VDict fields)) = Ret VNone
  /\ clean_returned VNone = Ret [].
Proof.
  intros inner fields.
  pose proof (@generate_with_ollama_returns_content
                (lit "p") (fun _ => Body (VDict fields)) fields inner VNone
                eq_refl eq_refl eq_refl) as [H1 H2].
  exact (conj eq_refl (conj eq_refl (conj H1 (H2 eq_refl)))).
Defined.

Lemma save_write_refused_witness :
  (forall path, write_file EXAMPLE_WORLD_READONLY path (lit "# Title")
                = Some (OSError (lit "[Errno 13] Permission denied")))
  /\ (output_dir_exists EXAMPLE_WORLD_READONLY = true
      \/ makedirs EXAMPLE_WORLD_READONLY = None)
  /\ save EXAMPLE_ARGS_EXPLICIT EXAMPLE_WORLD_READONLY [] (lit "# Title")
     = mkRun [MSG_WRITE_ERROR (lit "out/README.md") EXAMPLE_DENIED] None Completed.
Proof.
  assert (H1 : forall path, write_file EXAMPLE_WORLD_READONLY path (lit "# Title")
                            = Some (OSError (lit "[Errno 13] Permission denied")))
    by (intros path; reflexivity).
  assert (H2 : output_dir_exists EXAMPLE_WORLD_READONLY = true
               \/ makedirs EXAMPLE_WORLD_READONLY = None)
    by (left; reflexivity).
  refine (conj H1 (conj H2 _)).
  exact (@save_write_refused EXAMPLE_ARGS_EXPLICIT EXAMPLE_WORLD_READONLY []
           (lit "# Title") (lit "[Errno 13] Permission denied") H1 H2).
Defined.

(** X18: without any credential, a content entry that is truthy and not a
    string (a number, a non-empty list or object, true) reaches the
    sanitizer, which has no [splitlines] to call on it: the run ends with an
    uncaught [AttributeError] and writes nothing. *)
Theorem main_local_content_not_text (args : arguments) (w : world)
        (fields inner : list (str * value)) (content : value) :
  FileSet (directory args) (target w) <> [] ->
  given (arg_gemini_api_key args) = false ->
  given (arg_openai_api_key args) = false ->
  given (arg_groq_api_key args) = false ->
  ollama_http (remote w) (prompt_of args w) = Body (VDict fields) ->
  lookup MESSAGE fields = Some (VDict inner) ->
  lookup CONTENT inner = Some content ->
  truthy_non_string content ->
  main args w = mkRun [] None (Uncaught AttributeError).
Proof.
  intros Hne Hg Ho Hq Hbody Hm Hc [Htruthy Hnot].
  rewrite (main_after_scan args w Hne).
  unfold handle_generation, select_backend. rewrite Hg, Ho, Hq.
  cbn [run_backend]. unfold generate_with_ollama. rewrite Hbody.
  unfold ollama_body, bind, py_in, py_getitem. rewrite Hm, Hc.
  unfold clean_returned. rewrite Htruthy. cbn [negb].
  destruct content; try reflexivity. exfalso. eapply Hnot. reflexivity.
Qed.

Lemma main_local_content_not_text_witness :
  FileSet (directory EXAMPLE_ARGS_LOCAL) (target EXAMPLE_WORLD_NUMBER) <> []
  /\ truthy_non_string (VNum true)
  /\ main EXAMPLE_ARGS_LOCAL EXAMPLE_WORLD_NUMBER
     = mkRun [] None (Uncaught AttributeError).
Proof.
  assert (H0 : FileSet (directory EXAMPLE_ARGS_LOCAL) (target EXAMPLE_WORLD_NUMBER)
               <> []) by discriminate.
  assert (H1 : truthy_non_string (VNum true))
    by (split; [reflexivity | discriminate]).
  refine (conj H0 (conj H1 _)).
  exact (@main_local_content_not_text EXAMPLE_ARGS_LOCAL EXAMPLE_WORLD_NUMBER
           [(MESSAGE, VDict [(CONTENT, VNum true)])] [(CONTENT, VNum true)]
           (VNum true) H0 eq_refl eq_refl eq_refl eq_refl eq_refl eq_refl H1).
Defined.

End FurtherScript.
